(** * Nebenuhr: the clock-drive engine of the slave-clock controller

    A shallow embedding of [src/main.cpp]: the position tracker
    ([currentDisplayedTime]), the time source adapter ([setCurrentTime]),
    the pulse generator ([advance]), the convergence tick (the lambda run by
    [runEvery<1000>] in [loop]) and the operator override ([handleSet]).

    The firmware keeps its state in file-scope globals and talks to the pins,
    the EEPROM and the web server through side effects.  The globals are
    gathered in the record [machine]; the functions are computations in
    ExtLib's state monad over it, and the side effects that matter are
    recorded, in program order, in the [trace] field.

    Left out: Wi-Fi, mDNS, OTA, the logger and the page [handleRoot] builds,
    and the millisecond bookkeeping of [runEvery], whose only role is to
    decide when the lambdas run.  Wall-clock time enters as the arguments of
    the computations that read it. *)

From Stdlib Require Import ZArith List String Bool Lia.
From Stdlib Require Import Ascii NArith Decimal DecimalString.
From ExtLib Require Import Structures.Monad Structures.MonadState.
From ExtLib Require Import Data.Monads.StateMonad.
Import ListNotations.
Import MonadNotation.
Local Open Scope Z_scope.
Local Open Scope monad_scope.

(** ** Machine integers

    [currentDisplayedTime] and [currentTime] are [int16_t]; [int] is 32 bits
    wide on the ESP8266.  Values are kept in [Z] and every store into a
    fixed-width variable goes through the two's-complement wrap of its type. *)

Module Int.

Definition wrap (bits : Z) (z : Z) : Z :=
  (z + 2 ^ (bits - 1)) mod 2 ^ bits - 2 ^ (bits - 1).

Definition wrap16 (z : Z) : Z := wrap 16 z.
Definition wrap32 (z : Z) : Z := wrap 32 z.

Definition wrapu32 (z : Z) : Z := z mod 2 ^ 32.

Definition in_int16 (z : Z) : Prop := -32768 <= z <= 32767.

End Int.

(** ** Pins, side effects and the collaborators' values *)

Inductive pin : Type := OUT1 | OUT2.

Inductive level : Type := LOW | HIGH.

(** The effects of the modelled functions, as they appear in the source. *)
Inductive event : Type :=
| AnalogWrite (p : pin) (value : Z)
| DigitalWrite (p : pin) (l : level)
| Delay (ms : Z)
| SendHeader (name value : string)
| Send (code : Z) (content_type body : string).

(** [statistics_t]. *)
Record statistics_t : Type := mkStats {
  magicNumber : Z;
  uptimeSeconds : Z;
  uptimeSecondsTotal : Z;
  previousSecondsTotal : Z;
  reboots : Z;
  zoneId : Z
}.

(** AceTime's [TimeZone], as far as the firmware looks at it: either the
    error value ([isError()]) or a zone with its id ([getZoneId()]). *)
Inductive TimeZone : Type :=
| TimeZoneError
| TimeZoneFor (id : Z).

Definition isError (z : TimeZone) : bool :=
  match z with TimeZoneError => true | TimeZoneFor _ => false end.

Definition getZoneId (z : TimeZone) : Z :=
  match z with TimeZoneError => 0 | TimeZoneFor id => id end.

(** AceTime's [ZonedDateTime], as far as the firmware looks at it. *)
Record ZonedDateTime : Type := mkZoned {
  hour : Z;
  minute : Z;
  second : Z
}.

(** A reading is a time of day. *)
Definition time_of_day (t : ZonedDateTime) : Prop :=
  0 <= hour t <= 23 /\ 0 <= minute t <= 59 /\ 0 <= second t <= 59.

(** The three form fields of [POST /set], after [String::toInt()]. *)
Record request : Type := mkRequest {
  arg_hour : Z;
  arg_minute : Z;
  arg_zone : Z
}.

(** ** The globals *)

Record machine : Type := mkMachine {
  currentDisplayedTime : Z;      (* int16_t: what the physical clock shows *)
  currentTime : Z;               (* int16_t: actual current time *)
  localZone : TimeZone;
  globalStats : statistics_t;
  eeprom_buffer : statistics_t;  (* what EEPROM.put last stored at STATS_ADDRESS *)
  eeprom_flash : statistics_t;   (* what EEPROM.commit last wrote out *)
  trace : list event             (* effects so far, oldest first *)
}.

Definition with_currentDisplayedTime (v : Z) (s : machine) : machine :=
  mkMachine v (currentTime s) (localZone s) (globalStats s)
            (eeprom_buffer s) (eeprom_flash s) (trace s).

Definition with_currentTime (v : Z) (s : machine) : machine :=
  mkMachine (currentDisplayedTime s) v (localZone s) (globalStats s)
            (eeprom_buffer s) (eeprom_flash s) (trace s).

Definition with_localZone (z : TimeZone) (s : machine) : machine :=
  mkMachine (currentDisplayedTime s) (currentTime s) z (globalStats s)
            (eeprom_buffer s) (eeprom_flash s) (trace s).

Definition with_globalStats (g : statistics_t) (s : machine) : machine :=
  mkMachine (currentDisplayedTime s) (currentTime s) (localZone s) g
            (eeprom_buffer s) (eeprom_flash s) (trace s).

Definition with_eeprom_buffer (g : statistics_t) (s : machine) : machine :=
  mkMachine (currentDisplayedTime s) (currentTime s) (localZone s)
            (globalStats s) g (eeprom_flash s) (trace s).

Definition with_eeprom_flash (g : statistics_t) (s : machine) : machine :=
  mkMachine (currentDisplayedTime s) (currentTime s) (localZone s)
            (globalStats s) (eeprom_buffer s) g (trace s).

Definition with_trace (t : list event) (s : machine) : machine :=
  mkMachine (currentDisplayedTime s) (currentTime s) (localZone s)
            (globalStats s) (eeprom_buffer s) (eeprom_flash s) t.

Definition with_zoneId (id : Z) (g : statistics_t) : statistics_t :=
  mkStats (magicNumber g) (uptimeSeconds g) (uptimeSecondsTotal g)
          (previousSecondsTotal g) (reboots g) id.

Definition with_uptime (secs total : Z) (g : statistics_t) : statistics_t :=
  mkStats (magicNumber g) secs total
          (previousSecondsTotal g) (reboots g) (zoneId g).

(** ** The monad of the firmware's functions *)

Definition fw : Type -> Type := state machine.

Definition update (f : machine -> machine) : fw unit :=
  s <- get ;; put (f s).

Definition emit (e : event) : fw unit :=
  update (fun s => with_trace (trace s ++ [e]) s).

Definition analogWrite (p : pin) (value : Z) : fw unit := emit (AnalogWrite p value).
Definition digitalWrite (p : pin) (l : level) : fw unit := emit (DigitalWrite p l).
Definition delay (ms : Z) : fw unit := emit (Delay ms).
Definition sendHeader (name value : string) : fw unit := emit (SendHeader name value).
Definition send (code : Z) (content_type body : string) : fw unit :=
  emit (Send code content_type body).

Definition EEPROM_put : fw unit :=
  update (fun s => with_eeprom_buffer (globalStats s) s).

Definition EEPROM_commit : fw unit :=
  update (fun s => with_eeprom_flash (eeprom_buffer s) s).

(** [for (x = 0; x < n; x++) body(a[x])] over an array [a] of [n] elements. *)
Fixpoint for_each {A : Type} (a : list A) (body : A -> fw unit) : fw unit :=
  match a with
  | [] => ret tt
  | x :: rest => body x ;; for_each rest body
  end.

(** ** The pulse generator and position tracker: [advance()] *)

Definition STEPS : list Z := [0; 4; 8; 16; 32; 64; 128; 192; 255].

Definition advance : fw unit :=
  for_each STEPS (fun step =>
    D <- gets currentDisplayedTime ;;
    (if Z.rem D 2 =? 0 then
       analogWrite OUT1 (255 - step) ;;
       digitalWrite OUT2 HIGH
     else
       digitalWrite OUT1 HIGH ;;
       analogWrite OUT2 (255 - step)) ;;
    delay 30) ;;
  delay 200 ;;
  digitalWrite OUT1 LOW ;;
  digitalWrite OUT2 LOW ;;
  update (fun s => with_currentDisplayedTime
                     (Int.wrap16 (currentDisplayedTime s + 1)) s) ;;
  D <- gets currentDisplayedTime ;;
  if 1440 <=? D then
    update (with_currentDisplayedTime (Int.wrap16 (D - 1440)))
  else ret tt.

(** ** The convergence tick: the lambda [loop] hands to [runEvery<1000>] *)

Definition tick : fw unit :=
  D <- gets currentDisplayedTime ;;
  T <- gets currentTime ;;
  if D =? T then ret tt
  else if D <? T then advance
  else if T + 10 <? D then
    update (with_currentDisplayedTime (Int.wrap16 (D - 1440)))
  else ret tt.

(** ** The timezone collaborator

    AceTime is a library outside the repository.  The firmware uses two of
    its operations, taken here as the members of an interface:
    [zoneManager.createForZoneIndex(idx)] and
    [ZonedDateTime::forUnixSeconds64(t, zone)]. *)

Class AceTime : Type := {
  createForZoneIndex : Z -> TimeZone;
  forUnixSeconds64 : Z -> TimeZone -> ZonedDateTime
}.

Section Firmware.

Context {ace : AceTime}.

(** ** The time source adapter: [setCurrentTime()]

    [now] is the value [time(nullptr)] returns at the call. *)

Definition setCurrentTime (now : Z) : fw unit :=
  zone <- gets localZone ;;
  let zonedDateTime := forUnixSeconds64 now zone in
  update (with_currentTime
            (Int.wrap16 (minute zonedDateTime + hour zonedDateTime * 60))) ;;
  if second zonedDateTime =? 59 then
    update (fun s => with_currentTime (Int.wrap16 (currentTime s + 1)) s)
  else ret tt.

(** ** The operator override: [handleSet()] *)

Definition handleSet (req : request) : fw unit :=
  let hour := arg_hour req in
  let minute := arg_minute req in
  let zoneIdx := arg_zone req in
  update (with_currentDisplayedTime
            (Int.wrap16
               (Z.rem (Int.wrap32 (Int.wrap32 (hour * 60) + minute)) 1440))) ;;
  update (with_localZone (createForZoneIndex zoneIdx)) ;;
  zone <- gets localZone ;;
  (if negb (isError zone) then
     update (fun s => with_globalStats
                        (with_zoneId (getZoneId zone) (globalStats s)) s) ;;
     EEPROM_put ;;
     EEPROM_commit
   else ret tt) ;;
  sendHeader "Location" "/" ;;
  send 302 "text/plain" "".

(** ** The housekeeping lambda [loop] hands to [runEvery<500>]

    [millis] is the value of [millis()] and [now] the value of
    [time(nullptr)] at the call; [drd.loop()] and [MDNS.update()] do not
    touch the globals. *)

Definition housekeeping (millis now : Z) : fw unit :=
  update (fun s =>
    let secs := millis / 1000 in
    with_globalStats
      (with_uptime secs
         (Int.wrapu32 (previousSecondsTotal (globalStats s) + secs))
         (globalStats s)) s) ;;
  setCurrentTime now.

(** ** The end of [setup()]: lines 352-353 and 401-405

    The drive lines are put low, the time is read once and the display is
    taken to show it. *)

Definition setup (now : Z) : fw unit :=
  digitalWrite OUT1 LOW ;;
  digitalWrite OUT2 LOW ;;
  setCurrentTime now ;;
  update (fun s => with_currentDisplayedTime (currentTime s) s).

(** ** What [loop] dispatches

    [loop] is single threaded: the web handler, the tick and the
    housekeeping each run to completion, in some order. *)

Inductive input : Type :=
| Tick
| Housekeeping (millis now : Z)
| PostSet (req : request).

Definition serve (i : input) : fw unit :=
  match i with
  | Tick => tick
  | Housekeeping millis now => housekeeping millis now
  | PostSet req => handleSet req
  end.

End Firmware.

(** ** Observing a run *)

(** The effects a computation adds to the trace. *)
Definition effects {A : Type} (c : fw A) (s : machine) : list event :=
  trace (execState c (with_trace [] s)).

(** The state of one drive line. *)
Inductive drive : Type :=
| Low
| High
| Pwm (value : Z).

Definition drive_of_level (l : level) : drive :=
  match l with LOW => Low | HIGH => High end.

(** The state of the two drive lines, OUT1 first. *)
Definition lines : Type := (drive * drive)%type.

Definition write_line (p : pin) (d : drive) (ls : lines) : lines :=
  match p with
  | OUT1 => (d, snd ls)
  | OUT2 => (fst ls, d)
  end.

Definition read_line (p : pin) (ls : lines) : drive :=
  match p with
  | OUT1 => fst ls
  | OUT2 => snd ls
  end.

(** What the two lines do over time: for every [Delay], the state the lines
    are in while it lasts, and the state they are left in at the end. *)
Fixpoint timeline (ls : lines) (tr : list event) : list (lines * Z) * lines :=
  match tr with
  | [] => ([], ls)
  | AnalogWrite p v :: rest => timeline (write_line p (Pwm v) ls) rest
  | DigitalWrite p l :: rest => timeline (write_line p (drive_of_level l) ls) rest
  | Delay ms :: rest =>
      let (segments, final) := timeline ls rest in ((ls, ms) :: segments, final)
  | _ :: rest => timeline ls rest
  end.

(** The values written with [analogWrite] to a pin, in order. *)
Fixpoint analog_values (p : pin) (tr : list event) : list Z :=
  match tr with
  | [] => []
  | AnalogWrite q v :: rest =>
      match p, q with
      | OUT1, OUT1 | OUT2, OUT2 => v :: analog_values p rest
      | _, _ => analog_values p rest
      end
  | _ :: rest => analog_values p rest
  end.

(** The pin of the first [analogWrite] of a trace: the active line of the
    pulse it holds, if it holds one. *)
Fixpoint active_line (tr : list event) : option pin :=
  match tr with
  | [] => None
  | AnalogWrite p _ :: _ => Some p
  | _ :: rest => active_line rest
  end.

Definition other (p : pin) : pin :=
  match p with OUT1 => OUT2 | OUT2 => OUT1 end.

(** The waveform of one pulse on an active line, as a list of effects. *)
Definition ramp_step (active : pin) (value : Z) : list event :=
  match active with
  | OUT1 => [AnalogWrite OUT1 value; DigitalWrite OUT2 HIGH; Delay 30]
  | OUT2 => [DigitalWrite OUT1 HIGH; AnalogWrite OUT2 value; Delay 30]
  end.

Definition waveform (active : pin) : list event :=
  flat_map (ramp_step active) [255; 251; 247; 239; 223; 191; 127; 63; 0]
  ++ [Delay 200; DigitalWrite OUT1 LOW; DigitalWrite OUT2 LOW].

(** The line [advance()] ramps when the display shows minute [D]. *)
Definition line_for (D : Z) : pin :=
  if Z.rem D 2 =? 0 then OUT1 else OUT2.

Definition total_delay (tl : list (lines * Z)) : Z :=
  fold_right (fun seg acc => snd seg + acc) 0 tl.

(** What the tracker update at the end of [advance()] (lines 490-493) makes
    of a displayed minute [D]. *)
Definition tracker_after_advance (D : Z) : Z :=
  let D1 := Int.wrap16 (D + 1) in
  if 1440 <=? D1 then Int.wrap16 (D1 - 1440) else D1.

(** What a run lets an observer of the clock see: the pulses, each with its
    active line, and the operator's overrides, in order. *)
Inductive observation : Type :=
| Pulse (active : pin)
| Override.

Section Runs.

Context {ace : AceTime}.

Definition observe (i : input) (s : machine) : list observation :=
  match i with
  | PostSet _ => [Override]
  | _ =>
      match active_line (effects (serve i) s) with
      | Some p => [Pulse p]
      | None => []
      end
  end.

Fixpoint history (inputs : list input) (s : machine) : list observation :=
  match inputs with
  | [] => []
  | i :: rest => observe i s ++ history rest (execState (serve i) s)
  end.

(** What the collaborator hands to the housekeeping at an input: AceTime's
    accessors return [uint8_t]. *)
Definition uint8_reading (t : ZonedDateTime) : Prop :=
  0 <= hour t <= 255 /\ 0 <= minute t <= 255 /\ 0 <= second t <= 255.

Definition admissible (s : machine) (i : input) : Prop :=
  match i with
  | Housekeeping _ now => uint8_reading (forUnixSeconds64 now (localZone s))
  | _ => True
  end.

(** The states the firmware can be in when [loop] is entered: [setup] has
    read a time of day, and since then the handler, the tick and the
    housekeeping have run in any order. *)
Inductive reachable : machine -> Prop :=
| reachable_setup (s : machine) (now : Z) :
    time_of_day (forUnixSeconds64 now (localZone s)) ->
    reachable (execState (setup now) s)
| reachable_serve (s : machine) (i : input) :
    reachable s -> admissible s i ->
    reachable (execState (serve i) s).

End Runs.

(** ** A small stand-in for the collaborator, to run the model on

    Three zones at fixed offsets from UTC, in a registry indexed from 0;
    the index is taken as the [uint16_t] the manager receives. *)

Definition sample_registry : list (Z * Z) := [(101, 0); (102, 1); (103, 2)].

Definition sample_offset (z : TimeZone) : Z :=
  match z with
  | TimeZoneError => 0
  | TimeZoneFor id =>
      match find (fun entry => fst entry =? id) sample_registry with
      | Some entry => snd entry
      | None => 0
      end
  end.

Definition sample_zones : AceTime := {|
  createForZoneIndex idx :=
    match nth_error sample_registry (Z.to_nat (idx mod 65536)) with
    | Some entry => TimeZoneFor (fst entry)
    | None => TimeZoneError
    end;
  forUnixSeconds64 now zone :=
    let local := now + 3600 * sample_offset zone in
    mkZoned ((local / 3600) mod 24) ((local / 60) mod 60) (local mod 60)
|}.

Definition no_stats : statistics_t := mkStats 3735928559 0 0 0 1 101.

(** The firmware with the display at minute [D], the target at minute [T],
    the first sample zone active and nothing traced yet. *)
Definition showing (D T : Z) : machine :=
  mkMachine D T (TimeZoneFor 101) no_stats no_stats no_stats [].

(** [n] ticks in a row: the target is not refreshed and the operator does
    not intervene in between. *)
Fixpoint ticks (n : nat) : fw unit :=
  match n with
  | O => ret tt
  | S n' => tick ;; ticks n'
  end.

(** The active lines of the pulses of a history, overrides dropped. *)
Fixpoint pulse_lines (log : list observation) : list pin :=
  match log with
  | [] => []
  | Pulse p :: rest => p :: pulse_lines rest
  | Override :: rest => pulse_lines rest
  end.

(** A history alternates from [expected]: a pulse that follows a pulse with
    no override in between uses the other line, and so does the first pulse
    with respect to [expected], when there is one. *)
Fixpoint alternates_from (expected : option pin) (log : list observation) : Prop :=
  match log with
  | [] => True
  | Override :: rest => alternates_from None rest
  | Pulse p :: rest =>
      match expected with Some q => p = q | None => True end /\
      alternates_from (Some (other p)) rest
  end.

(** The response [handleSet] ends with (lines 289-290). *)
Definition redirect : list event :=
  [SendHeader "Location" "/"; Send 302 "text/plain" ""].

(** The bounds the tracker and the target keep between inputs. *)
Definition within_a_day (s : machine) : Prop :=
  -1440 < currentDisplayedTime s <= 1440 /\ 0 <= currentTime s <= 15556.

(** * The rest of the firmware *)

(** ** The form fields of the page: [handleRoot()], lines 193-194

    [/] and [%] on [int] truncate toward zero. *)

Definition handleRoot_hour (s : machine) : Z :=
  Z.rem (Z.quot (1440 + currentDisplayedTime s) 60) 24.

Definition handleRoot_minute (s : machine) : Z :=
  Z.rem (1440 + currentDisplayedTime s) 60.

(** ** [secondsToString()]

    [String(n)] of an [unsigned long] is its decimal numeral. *)

Definition String_decimal (n : Z) : string :=
  NilZero.string_of_uint (N.to_uint (Z.to_N n)).

Definition secondsToString (seconds : Z) : string :=
  let result := ""%string in
  let result :=
    if 86400 <? seconds
    then (String_decimal (seconds / 86400) ++ "d ")%string
    else result in
  let result :=
    (result ++ String_decimal ((seconds / 3600) mod 24) ++ "h ")%string in
  let result :=
    (result ++ String_decimal ((seconds / 60) mod 60) ++ "m ")%string in
  (result ++ String_decimal (seconds mod 60) ++ "s")%string.

(** ** The [Logger] class *)

Record Logger : Type := mkLogger {
  lastItems : list string;
  currentLine : string
}.

(** [Logger::write(uint8_t c)]: the value returned and the logger after. *)
Definition Logger_write (c : ascii) (lg : Logger) : Z * Logger :=
  if Ascii.eqb c "010" then
    let items := lastItems lg ++ [currentLine lg] in
    let items := if (100 <? List.length items)%nat then tl items else items in
    (1, mkLogger items ""%string)
  else
    (1, mkLogger (lastItems lg) (currentLine lg ++ String c "")%string).

(** [Print] hands the bytes of what is printed to [write] one by one. *)
Fixpoint Logger_print (bytes : list ascii) (lg : Logger) : Logger :=
  match bytes with
  | [] => lg
  | c :: rest => Logger_print rest (snd (Logger_write c lg))
  end.

(** The lines completed by a byte sequence that starts in the middle of the
    line [current], and the line left open at its end. *)
Fixpoint completed_lines (current : string) (bytes : list ascii)
  : list string * string :=
  match bytes with
  | [] => ([], current)
  | c :: rest =>
      if Ascii.eqb c "010" then
        let (lines, open) := completed_lines ""%string rest in
        (current :: lines, open)
      else completed_lines (current ++ String c "")%string rest
  end.

(** The last [n] elements of a list. *)
Definition last_n {A : Type} (n : nat) (l : list A) : list A :=
  skipn (List.length l - n) l.

(** ** [setupSntp()]

    One element of [samples] holds what [time(nullptr)] and [millis()]
    return in one round of the loop.  The loop ends with a valid time, or
    with [ESP.reset()]; [SntpWaiting] says that the samples given ran out
    first. *)

Definition EPOCH_2000_01_01 : Z := 946684800.
Definition REBOOT_TIMEOUT_MILLIS : Z := 5000.

Inductive sntp_outcome : Type :=
| SntpDone (now : Z)
| SntpReset
| SntpWaiting.

Fixpoint setupSntp (startMillis : Z) (samples : list (Z * Z)) : sntp_outcome :=
  match samples with
  | [] => SntpWaiting
  | (now, nowMillis) :: rest =>
      if EPOCH_2000_01_01 <=? now then SntpDone now
      else if REBOOT_TIMEOUT_MILLIS <=? Int.wrapu32 (nowMillis - startMillis)
           then SntpReset
           else setupSntp startMillis rest
  end.

(** ** [runEvery<T>(f)]

    [lastMillis] is the function's static, [None] before the first call,
    when it is initialised with a reading of [millis()], here [init];
    [now] and [at_fire] are the two later readings.  The value returned is
    the static after the call. *)

Definition runEvery (T : Z) (lastMillis : option Z) (init now at_fire : Z)
    (f : fw unit) : fw Z :=
  let lastMillis := match lastMillis with Some l => l | None => init end in
  if Int.wrapu32 (lastMillis + T) <=? now then
    f ;; ret at_fire
  else ret lastMillis.

(** ** The persistence lambda [loop] hands to [runEvery<1000 * 15 * 60>] *)

Definition persist : fw unit :=
  EEPROM_put ;;
  EEPROM_commit.

(** ** Boot: [readFromEEProm()] and the whole of [setup()]

    Two more members of the timezone collaborator are used here:
    [zoneManager.createForZoneId(id)], the constant
    [zonedbx::kZoneIdEurope_Berlin], and the zone [localZone] is initialised
    with, [createForZoneInfo(&zonedbx::kZoneEurope_Berlin)]. *)

Class ZoneIds : Type := {
  createForZoneId : Z -> TimeZone;
  kZoneIdEurope_Berlin : Z;
  kZoneEurope_Berlin : TimeZone
}.

Definition EEPROM_MAGIC_NUMBER : Z := 3735928559.

Definition EEPROM_get : fw unit :=
  update (fun s => with_globalStats (eeprom_buffer s) s).

Definition with_previousSecondsTotal (v : Z) (g : statistics_t) : statistics_t :=
  mkStats (magicNumber g) (uptimeSeconds g) (uptimeSecondsTotal g)
          v (reboots g) (zoneId g).

Definition with_uptimeSeconds (v : Z) (g : statistics_t) : statistics_t :=
  mkStats (magicNumber g) v (uptimeSecondsTotal g)
          (previousSecondsTotal g) (reboots g) (zoneId g).

Definition with_reboots (v : Z) (g : statistics_t) : statistics_t :=
  mkStats (magicNumber g) (uptimeSeconds g) (uptimeSecondsTotal g)
          (previousSecondsTotal g) v (zoneId g).

Section Boot.

Context {ace : AceTime} {ids : ZoneIds}.

(** The globals as their initialisers leave them, with the EEPROM library's
    buffer loaded from the flash record ([begin()], called by the
    [DoubleResetDetector] constructor). *)
Definition power_on (flash : statistics_t) : machine :=
  mkMachine (9 * 60 + 44) (9 * 60 + 44) kZoneEurope_Berlin
            (mkStats 0 0 0 0 0 0) flash flash [].

Definition readFromEEProm : fw unit :=
  EEPROM_get ;;
  g <- gets globalStats ;;
  (if negb (magicNumber g =? EEPROM_MAGIC_NUMBER) then
     (* lines 305-310 assign every field *)
     update (with_globalStats
               (mkStats EEPROM_MAGIC_NUMBER 0 0 0 0 kZoneIdEurope_Berlin)) ;;
     EEPROM_put
   else ret tt) ;;
  update (fun s => with_globalStats
                     (with_previousSecondsTotal
                        (uptimeSecondsTotal (globalStats s)) (globalStats s)) s) ;;
  update (fun s => with_localZone
                     (createForZoneId (zoneId (globalStats s))) s) ;;
  zone <- gets localZone ;;
  (if isError zone then
     update (fun s => with_globalStats
                        (with_zoneId kZoneIdEurope_Berlin (globalStats s)) s) ;;
     update (fun s => with_localZone
                        (createForZoneId (zoneId (globalStats s))) s) ;;
     EEPROM_put
   else ret tt) ;;
  update (fun s => with_globalStats
                     (with_uptimeSeconds 0 (globalStats s)) s) ;;
  EEPROM_commit.

(** [setup()] from its first line, on the path where the Wi-Fi connects and
    [setupSntp] returns; [now] is what [time(nullptr)] returns then.
    [reboots] is a [uint16_t]. *)
Definition boot (now : Z) : fw unit :=
  readFromEEProm ;;
  update (fun s => with_globalStats
                     (with_uptimeSeconds 0 (globalStats s)) s) ;;
  digitalWrite OUT1 LOW ;;
  digitalWrite OUT2 LOW ;;
  update (fun s => with_globalStats
                     (with_reboots ((reboots (globalStats s) + 1) mod 2 ^ 16)
                                   (globalStats s)) s) ;;
  EEPROM_put ;;
  setCurrentTime now ;;
  update (fun s => with_currentDisplayedTime (currentTime s) s).

(** The handler, the tick and the housekeeping, in a given order. *)
Definition serve_all (inputs : list input) : fw unit := for_each inputs serve.

End Boot.

(** A stand-in for the rest of the collaborator, on the sample registry. *)
Definition sample_ids : ZoneIds := {|
  createForZoneId id :=
    match find (fun entry => fst entry =? id) sample_registry with
    | Some entry => TimeZoneFor (fst entry)
    | None => TimeZoneError
    end;
  kZoneIdEurope_Berlin := 102;
  kZoneEurope_Berlin := TimeZoneFor 102
|}.

(** * Properties *)

(** ** Wrap-around *)

Lemma wrap16_small (z : Z) : Int.in_int16 z -> Int.wrap16 z = z.
Proof.
  unfold Int.in_int16, Int.wrap16, Int.wrap. intros range.
  change (2 ^ (16 - 1)) with 32768. change (2 ^ 16) with 65536.
  rewrite Z.mod_small; lia.
Qed.

Lemma wrap16_even (z : Z) : Z.even (Int.wrap16 z) = Z.even z.
Proof.
  unfold Int.wrap16, Int.wrap.
  change (2 ^ (16 - 1)) with 32768. change (2 ^ 16) with 65536.
  rewrite (Z.mod_eq (z + 32768) 65536) by lia.
  replace (z + 32768 - 65536 * ((z + 32768) / 65536) - 32768)
    with (z + 2 * (- 32768 * ((z + 32768) / 65536))) by lia.
  apply Z.even_add_mul_2.
Qed.

Lemma wrap32_small (z : Z) :
  -2147483648 <= z <= 2147483647 -> Int.wrap32 z = z.
Proof.
  unfold Int.wrap32, Int.wrap. intros range.
  change (2 ^ (32 - 1)) with 2147483648. change (2 ^ 32) with 4294967296.
  rewrite Z.mod_small; lia.
Qed.

(** The C++ test [D % 2 == 0] is the evenness of [D], also below zero. *)
Lemma rem2_even (D : Z) : (Z.rem D 2 =? 0) = Z.even D.
Proof.
  destruct (Z.even D) eqn:parity.
  - apply Z.eqb_eq. apply Z.even_spec in parity. destruct parity as [k ->].
    rewrite Z.mul_comm. apply Z.rem_mul. lia.
  - apply Z.eqb_neq. intros zero.
    apply Z.rem_divide in zero; [|lia]. destruct zero as [k ->].
    rewrite Z.mul_comm, Z.even_mul in parity. discriminate.
Qed.

Lemma line_for_even (D : Z) :
  line_for D = if Z.even D then OUT1 else OUT2.
Proof. unfold line_for. rewrite rem2_even. reflexivity. Qed.

Lemma tracker_after_advance_even (D : Z) :
  Z.even (tracker_after_advance D) = negb (Z.even D).
Proof.
  unfold tracker_after_advance. cbv zeta.
  assert (flip : Z.even (Int.wrap16 (D + 1)) = negb (Z.even D)).
  { rewrite wrap16_even, Z.add_1_r, Z.even_succ, <- Z.negb_even. reflexivity. }
  destruct (1440 <=? Int.wrap16 (D + 1)); [|exact flip].
  rewrite wrap16_even.
  replace (Int.wrap16 (D + 1) - 1440) with (Int.wrap16 (D + 1) + 2 * (-720)) by lia.
  rewrite Z.even_add_mul_2. exact flip.
Qed.

Lemma tracker_after_advance_small (D : Z) :
  -32768 <= D < 1439 -> tracker_after_advance D = D + 1.
Proof.
  intros range. unfold tracker_after_advance. cbv zeta.
  rewrite wrap16_small by (unfold Int.in_int16; lia).
  destruct (Z.leb_spec 1440 (D + 1)); [lia | reflexivity].
Qed.

Lemma tracker_after_advance_wrap (D : Z) :
  1439 <= D <= 32766 -> tracker_after_advance D = D + 1 - 1440.
Proof.
  intros range. unfold tracker_after_advance. cbv zeta.
  rewrite (wrap16_small (D + 1)) by (unfold Int.in_int16; lia).
  destruct (Z.leb_spec 1440 (D + 1)); [|lia].
  apply wrap16_small. unfold Int.in_int16. lia.
Qed.

(** ** Running computations of the monad *)

Section Monad.

Context {A B : Type}.

Lemma run_bind (c : fw A) (k : A -> fw B) (s : machine) :
  runState (bind c k) s = runState (k (fst (runState c s))) (snd (runState c s)).
Proof. cbn. destruct (runState c s); reflexivity. Qed.

Lemma run_ret (a : A) (s : machine) : runState (ret a : fw A) s = (a, s).
Proof. reflexivity. Qed.

Lemma run_gets (f : machine -> A) (s : machine) :
  runState (gets f : fw A) s = (f s, s).
Proof. reflexivity. Qed.

End Monad.

Lemma run_update (f : machine -> machine) (s : machine) :
  runState (update f) s = (tt, f s).
Proof. reflexivity. Qed.

Lemma run_emit (e : event) (s : machine) :
  runState (emit e) s = (tt, with_trace (trace s ++ [e]) s).
Proof. reflexivity. Qed.

Ltac fw_run :=
  repeat (rewrite ?run_bind, ?run_ret, ?run_gets, ?run_update, ?run_emit;
          cbn [fst snd]).

Ltac fields :=
  cbn [currentDisplayedTime currentTime localZone globalStats eeprom_buffer
       eeprom_flash trace with_currentDisplayedTime with_currentTime
       with_localZone with_globalStats with_eeprom_buffer with_eeprom_flash
       with_trace].

(** ** The pulse generator *)

Lemma ramp_run (steps : list Z) (s : machine) :
  runState
    (for_each steps (fun step =>
      D <- gets currentDisplayedTime ;;
      (if Z.rem D 2 =? 0 then
         analogWrite OUT1 (255 - step) ;;
         digitalWrite OUT2 HIGH
       else
         digitalWrite OUT1 HIGH ;;
         analogWrite OUT2 (255 - step)) ;;
      delay 30)) s =
  (tt, with_trace
         (trace s ++
          flat_map (fun step =>
                      ramp_step (line_for (currentDisplayedTime s)) (255 - step))
                   steps) s).
Proof.
  revert s. induction steps as [|step steps IH]; intros s.
  - cbn [for_each flat_map]. rewrite run_ret, app_nil_r. destruct s; reflexivity.
  - cbn [for_each flat_map]. rewrite run_bind, IH. clear IH.
    unfold line_for, analogWrite, digitalWrite, delay.
    rewrite run_bind, run_gets. cbn [fst snd].
    destruct s as [D T z g b f tr]. fields.
    destruct (Z.rem D 2 =? 0) eqn:parity; fw_run; fields; rewrite parity;
      cbn [ramp_step]; rewrite <- !app_assoc; reflexivity.
Qed.

Lemma advance_run (s : machine) :
  runState advance s =
  (tt, with_trace
         (trace s ++ waveform (line_for (currentDisplayedTime s)))
         (with_currentDisplayedTime
            (tracker_after_advance (currentDisplayedTime s)) s)).
Proof.
  unfold advance. rewrite run_bind, ramp_run. cbn [fst snd].
  unfold delay, digitalWrite. fw_run.
  unfold tracker_after_advance, waveform.
  destruct s as [D T z g b f tr]. fields.
  destruct (1440 <=? Int.wrap16 (D + 1)); fw_run; fields;
    rewrite <- !app_assoc; reflexivity.
Qed.

Lemma advance_effects (s : machine) :
  effects advance s = waveform (line_for (currentDisplayedTime s)).
Proof. unfold effects, execState. rewrite advance_run. reflexivity. Qed.

Lemma advance_displayed (s : machine) :
  currentDisplayedTime (execState advance s) =
  tracker_after_advance (currentDisplayedTime s).
Proof. unfold execState. rewrite advance_run. reflexivity. Qed.

(** C4. One pulse, whatever minute is displayed and whatever state the lines
    are in before: the values written with [analogWrite] to the active line
    are 255, 251, 247, 239, 223, 191, 127, 63, 0 in this order and the idle
    line receives none; each of the nine values is held for 30 ms with the
    idle line high; the last state is held for 200 ms more; then both lines
    are low.  The delays add up to 9 * 30 + 200 = 470 ms. *)
Theorem pulse_waveform (s : machine) (ls : lines) :
  let active := line_for (currentDisplayedTime s) in
  let idle := other active in
  let tr := effects advance s in
  let during v := write_line active (Pwm v) (write_line idle High ls) in
  analog_values active tr = [255; 251; 247; 239; 223; 191; 127; 63; 0] /\
  analog_values idle tr = [] /\
  fst (timeline ls tr) =
    map (fun v => (during v, 30)) [255; 251; 247; 239; 223; 191; 127; 63; 0]
    ++ [(during 0, 200)] /\
  snd (timeline ls tr) = (Low, Low) /\
  total_delay (fst (timeline ls tr)) = 9 * 30 + 200 /\
  total_delay (fst (timeline ls tr)) = 470.
Proof.
  cbv zeta. rewrite advance_effects.
  destruct ls as [a b].
  destruct (line_for (currentDisplayedTime s)); repeat split; reflexivity.
Qed.

(** C2, as the code has it.  The line is chosen by the minute displayed
    before the pulse: if the minute displayed after the pulse
    ([currentDisplayedTime + 1]) is odd, OUT1 is the ramped line and OUT2 is
    high during the whole pulse; if it is even, OUT2 is the ramped line and
    OUT1 is high during the whole pulse. *)
Theorem active_line_by_next_minute (s : machine) (ls : lines) :
  let next := currentDisplayedTime s + 1 in
  let tr := effects advance s in
  (Z.odd next = true ->
     active_line tr = Some OUT1 /\ analog_values OUT2 tr = [] /\
     Forall (fun segment => read_line OUT2 (fst segment) = High)
            (fst (timeline ls tr))) /\
  (Z.even next = true ->
     active_line tr = Some OUT2 /\ analog_values OUT1 tr = [] /\
     Forall (fun segment => read_line OUT1 (fst segment) = High)
            (fst (timeline ls tr))).
Proof.
  cbv zeta. rewrite advance_effects, line_for_even.
  rewrite Z.add_1_r, Z.odd_succ, Z.even_succ, <- Z.negb_even.
  destruct ls as [a b].
  destruct (Z.even (currentDisplayedTime s)); split; intros parity;
    try discriminate parity;
    (split; [reflexivity | split; [reflexivity |]]);
    cbn; repeat constructor.
Qed.

Lemma active_line_by_next_minute_witness :
  (active_line (effects advance (showing 600 601)) = Some OUT1 /\
   analog_values OUT2 (effects advance (showing 600 601)) = [] /\
   Forall (fun segment => read_line OUT2 (fst segment) = High)
          (fst (timeline (Low, Low) (effects advance (showing 600 601))))) /\
  (active_line (effects advance (showing 601 602)) = Some OUT2 /\
   analog_values OUT1 (effects advance (showing 601 602)) = [] /\
   Forall (fun segment => read_line OUT1 (fst segment) = High)
          (fst (timeline (Low, Low) (effects advance (showing 601 602))))).
Proof.
  split.
  - exact (proj1 (active_line_by_next_minute (showing 600 601) (Low, Low))
                 eq_refl).
  - exact (proj2 (active_line_by_next_minute (showing 601 602) (Low, Low))
                 eq_refl).
Defined.

(** C2 as the specification words it fails: from minute 600 the next minute,
    601, is odd, and the pulse ramps OUT1, not OUT2, which is written high. *)
Lemma pulse_from_600_ramps_OUT1 :
  Z.odd (currentDisplayedTime (showing 600 601) + 1) = true /\
  active_line (effects advance (showing 600 601)) <> Some OUT2 /\
  analog_values OUT2 (effects advance (showing 600 601)) = [] /\
  analog_values OUT1 (effects advance (showing 600 601)) =
    [255; 251; 247; 239; 223; 191; 127; 63; 0].
Proof.
  repeat split; try reflexivity.
  vm_compute. discriminate.
Qed.

(** C5. From a displayed minute in [0, 1440) one [advance()] leaves
    (minute + 1) mod 1440 in the tracker; from 1439 it leaves 0. *)
Theorem advance_mod_1440 (s : machine) :
  0 <= currentDisplayedTime s < 1440 ->
  currentDisplayedTime (execState advance s) =
    (currentDisplayedTime s + 1) mod 1440 /\
  (currentDisplayedTime s = 1439 ->
   currentDisplayedTime (execState advance s) = 0).
Proof.
  intros range. rewrite advance_displayed.
  destruct (Z.eq_dec (currentDisplayedTime s) 1439) as [last | inner].
  - rewrite last. split; reflexivity.
  - rewrite tracker_after_advance_small by lia.
    rewrite Z.mod_small by lia. split; [reflexivity | lia].
Qed.

Lemma advance_mod_1440_witness :
  currentDisplayedTime (execState advance (showing 600 601))
    = (600 + 1) mod 1440 /\
  currentDisplayedTime (execState advance (showing 1439 0)) = 0.
Proof.
  split.
  - refine (proj1 (advance_mod_1440 (showing 600 601) _)). cbn. lia.
  - refine (proj2 (advance_mod_1440 (showing 1439 0) _) eq_refl). cbn. lia.
Defined.

(** ** The convergence tick *)

Lemma tick_run (s : machine) :
  runState tick s =
  let D := currentDisplayedTime s in
  let T := currentTime s in
  if D =? T then (tt, s)
  else if D <? T then runState advance s
  else if T + 10 <? D then
    (tt, with_currentDisplayedTime (Int.wrap16 (D - 1440)) s)
  else (tt, s).
Proof.
  unfold tick. fw_run. cbv zeta.
  destruct (currentDisplayedTime s =? currentTime s); [reflexivity|].
  destruct (currentDisplayedTime s <? currentTime s); [reflexivity|].
  destruct (currentTime s + 10 <? currentDisplayedTime s); reflexivity.
Qed.

Lemma tick_idle (s : machine) :
  currentDisplayedTime s = currentTime s \/
  currentTime s < currentDisplayedTime s <= currentTime s + 10 ->
  runState tick s = (tt, s).
Proof.
  intros idle. rewrite tick_run. cbv zeta.
  destruct (Z.eqb_spec (currentDisplayedTime s) (currentTime s)); [reflexivity|].
  destruct (Z.ltb_spec (currentDisplayedTime s) (currentTime s)); [lia|].
  destruct (Z.ltb_spec (currentTime s + 10) (currentDisplayedTime s)); [lia|].
  reflexivity.
Qed.

Lemma tick_pulse (s : machine) :
  currentDisplayedTime s < currentTime s ->
  runState tick s = runState advance s.
Proof.
  intros behind. rewrite tick_run. cbv zeta.
  destruct (Z.eqb_spec (currentDisplayedTime s) (currentTime s)); [lia|].
  destruct (Z.ltb_spec (currentDisplayedTime s) (currentTime s)); [|lia].
  reflexivity.
Qed.

Lemma tick_rebase (s : machine) :
  currentTime s + 10 < currentDisplayedTime s ->
  runState tick s =
  (tt, with_currentDisplayedTime
         (Int.wrap16 (currentDisplayedTime s - 1440)) s).
Proof.
  intros ahead. rewrite tick_run. cbv zeta.
  destruct (Z.eqb_spec (currentDisplayedTime s) (currentTime s)); [lia|].
  destruct (Z.ltb_spec (currentDisplayedTime s) (currentTime s)); [lia|].
  destruct (Z.ltb_spec (currentTime s + 10) (currentDisplayedTime s)); [|lia].
  reflexivity.
Qed.

Lemma with_trace_displayed (t : list event) (s : machine) :
  currentDisplayedTime (with_trace t s) = currentDisplayedTime s.
Proof. reflexivity. Qed.

Lemma with_trace_target (t : list event) (s : machine) :
  currentTime (with_trace t s) = currentTime s.
Proof. reflexivity. Qed.

Lemma tick_effects (s : machine) :
  effects tick s =
  if currentDisplayedTime s <? currentTime s
  then waveform (line_for (currentDisplayedTime s)) else [].
Proof.
  unfold effects, execState. rewrite tick_run. cbv zeta.
  rewrite !with_trace_displayed, !with_trace_target.
  destruct (Z.eqb_spec (currentDisplayedTime s) (currentTime s)) as [same|].
  - rewrite same, Z.ltb_irrefl. reflexivity.
  - destruct (currentDisplayedTime s <? currentTime s).
    + fold (execState advance (with_trace [] s)). fold (effects advance s).
      apply advance_effects.
    + destruct (currentTime s + 10 <? currentDisplayedTime s); reflexivity.
Qed.

(** C1. One tick, with the display at an [int16_t] value D and the target T
    one of the values the time source yields (0 to 1440, see
    [target_minute_range]).  D = T: no effect at all.  D < T: the effects
    are exactly one pulse waveform and the tracker moves one minute on, to
    D + 1, or from 1439 to 0 (which needs T = 1440).  T < D <= T + 10: no
    effect at all.  D > T + 10: no pulse and the tracker holds D - 1440. *)
Theorem tick_decision_table (s : machine) :
  let D := currentDisplayedTime s in
  let T := currentTime s in
  let D' := currentDisplayedTime (execState tick s) in
  Int.in_int16 D -> 0 <= T <= 1440 ->
  (D = T -> effects tick s = [] /\ D' = D) /\
  (D < T ->
     effects tick s = waveform (line_for D) /\
     (T < 1440 -> D' = D + 1) /\
     (D < 1439 -> D' = D + 1) /\
     (D = 1439 -> D' = 0)) /\
  (T < D /\ D <= T + 10 -> effects tick s = [] /\ D' = D) /\
  (D > T + 10 -> effects tick s = [] /\ D' = D - 1440).
Proof.
  cbv zeta. unfold Int.in_int16. intros rangeD rangeT.
  rewrite tick_effects.
  split; [|split; [|split]].
  - intros same. unfold execState. rewrite tick_idle by lia.
    replace (currentDisplayedTime s <? currentTime s) with false
      by (symmetry; apply Z.ltb_ge; lia).
    split; reflexivity.
  - intros behind.
    replace (currentDisplayedTime s <? currentTime s) with true
      by (symmetry; apply Z.ltb_lt; lia).
    unfold execState. rewrite tick_pulse by exact behind.
    rewrite advance_run. cbn [snd]. fields.
    split; [reflexivity | split; [|split]].
    + intros early. apply tracker_after_advance_small. lia.
    + intros early. apply tracker_after_advance_small. lia.
    + intros last. rewrite last. reflexivity.
  - intros ahead. unfold execState. rewrite tick_idle by lia.
    replace (currentDisplayedTime s <? currentTime s) with false
      by (symmetry; apply Z.ltb_ge; lia).
    split; reflexivity.
  - intros far. unfold execState. rewrite tick_rebase by lia.
    replace (currentDisplayedTime s <? currentTime s) with false
      by (symmetry; apply Z.ltb_ge; lia).
    cbn [snd]. fields. split; [reflexivity|].
    apply wrap16_small. unfold Int.in_int16. lia.
Qed.

Lemma tick_decision_table_witness :
  (effects tick (showing 600 600) = [] /\
   currentDisplayedTime (execState tick (showing 600 600)) = 600) /\
  (effects tick (showing 600 601) = waveform (line_for 600) /\
   currentDisplayedTime (execState tick (showing 600 601)) = 600 + 1) /\
  (effects tick (showing 1439 1440) = waveform (line_for 1439) /\
   currentDisplayedTime (execState tick (showing 1439 1440)) = 0) /\
  (effects tick (showing 605 600) = [] /\
   currentDisplayedTime (execState tick (showing 605 600)) = 605) /\
  (effects tick (showing 800 600) = [] /\
   currentDisplayedTime (execState tick (showing 800 600)) = 800 - 1440).
Proof.
  assert (int16 : forall D T,
            -32768 <= D <= 32767 ->
            Int.in_int16 (currentDisplayedTime (showing D T))).
  { intros D T range. exact range. }
  split; [|split; [|split; [|split]]].
  - destruct (tick_decision_table (showing 600 600)
                (int16 600 600 ltac:(lia)) ltac:(cbn; lia))
      as [same _].
    exact (same eq_refl).
  - destruct (tick_decision_table (showing 600 601)
                (int16 600 601 ltac:(lia)) ltac:(cbn; lia))
      as [_ [behind _]].
    destruct (behind ltac:(cbn; lia)) as [one [next _]].
    split; [exact one | apply next; cbn; lia].
  - destruct (tick_decision_table (showing 1439 1440)
                (int16 1439 1440 ltac:(lia)) ltac:(cbn; lia))
      as [_ [behind _]].
    destruct (behind ltac:(cbn; lia)) as [one [_ [_ midnight]]].
    split; [exact one | exact (midnight eq_refl)].
  - destruct (tick_decision_table (showing 605 600)
                (int16 605 600 ltac:(lia)) ltac:(cbn; lia))
      as [_ [_ [ahead _]]].
    apply ahead. cbn. lia.
  - destruct (tick_decision_table (showing 800 600)
                (int16 800 600 ltac:(lia)) ltac:(cbn; lia))
      as [_ [_ [_ far]]].
    apply far. cbn. lia.
Defined.

(** ** The time source adapter *)

Section TimeSource.

Context {ace : AceTime}.

Lemma setCurrentTime_run (now : Z) (s : machine) :
  runState (setCurrentTime now) s =
  let reading := forUnixSeconds64 now (localZone s) in
  let T := Int.wrap16 (minute reading + hour reading * 60) in
  (tt, with_currentTime
         (if second reading =? 59 then Int.wrap16 (T + 1) else T) s).
Proof.
  unfold setCurrentTime. fw_run. cbv zeta.
  destruct s as [D T z g b f tr]. fields.
  destruct (second (forUnixSeconds64 now z) =? 59); fw_run; reflexivity.
Qed.

Lemma setCurrentTime_target (now : Z) (s : machine) :
  let reading := forUnixSeconds64 now (localZone s) in
  uint8_reading reading ->
  currentTime (execState (setCurrentTime now) s) =
    hour reading * 60 + minute reading
    + (if second reading =? 59 then 1 else 0).
Proof.
  cbv zeta. unfold uint8_reading. intros range.
  unfold execState. rewrite setCurrentTime_run. cbv zeta. cbn [snd]. fields.
  rewrite (wrap16_small (minute _ + hour _ * 60))
    by (unfold Int.in_int16; lia).
  destruct (second _ =? 59).
  - rewrite wrap16_small by (unfold Int.in_int16; lia). lia.
  - lia.
Qed.

Lemma setCurrentTime_frame (now : Z) (s : machine) :
  let s' := execState (setCurrentTime now) s in
  currentDisplayedTime s' = currentDisplayedTime s /\
  localZone s' = localZone s /\
  globalStats s' = globalStats s /\
  eeprom_flash s' = eeprom_flash s /\
  trace s' = trace s.
Proof.
  cbv zeta. unfold execState. rewrite setCurrentTime_run. cbv zeta.
  repeat split.
Qed.

Lemma time_of_day_uint8 (t : ZonedDateTime) :
  time_of_day t -> uint8_reading t.
Proof. unfold time_of_day, uint8_reading. lia. Qed.

(** C3, as the code has it.  For a reading that is a time of day,
    [setCurrentTime] leaves hour * 60 + minute in [currentTime], plus one
    when the second is 59, with no reduction modulo 1440: the value lies
    between 0 and 1440, and it is 1440 exactly at 23:59:59. *)
Theorem target_minute_range (now : Z) (s : machine) :
  let reading := forUnixSeconds64 now (localZone s) in
  let T := currentTime (execState (setCurrentTime now) s) in
  time_of_day reading ->
  T = hour reading * 60 + minute reading
      + (if second reading =? 59 then 1 else 0) /\
  0 <= T <= 1440 /\
  (T = 1440 <->
   hour reading = 23 /\ minute reading = 59 /\ second reading = 59).
Proof.
  cbv zeta. intros valid.
  rewrite setCurrentTime_target by (apply time_of_day_uint8; exact valid).
  unfold time_of_day in valid.
  destruct (Z.eqb_spec (second (forUnixSeconds64 now (localZone s))) 59);
    repeat split; lia.
Qed.

End TimeSource.

Lemma target_minute_range_witness :
  currentTime
    (execState (setCurrentTime (ace := sample_zones) 45299) (showing 0 0))
  = 12 * 60 + 34 + 1.
Proof.
  assert (valid : time_of_day
            (forUnixSeconds64 (AceTime := sample_zones) 45299
               (localZone (showing 0 0)))).
  { unfold time_of_day. cbn. lia. }
  exact (proj1 (target_minute_range (ace := sample_zones) 45299
                  (showing 0 0) valid)).
Defined.

(** C3 as the specification words it fails at 23:59:59: the reading gives
    1439 + 1 = 1440, which is neither below 1440 nor 1440 mod 1440 = 0. *)
Lemma target_at_235959_is_1440 :
  let s := showing 0 0 in
  let T := currentTime
             (execState (setCurrentTime (ace := sample_zones) 86399) s) in
  forUnixSeconds64 (AceTime := sample_zones) 86399 (localZone s)
    = mkZoned 23 59 59 /\
  T = 1440 /\
  ~ (0 <= T < 1440) /\
  T <> (23 * 60 + 59 + 1) mod 1440.
Proof.
  cbv zeta. repeat split; try reflexivity.
  - vm_compute. intros [_ below]. discriminate below.
  - vm_compute. discriminate.
Qed.

(** ** The operator override *)

Section Operator.

Context {ace : AceTime}.

Lemma handleSet_run (req : request) (s : machine) :
  runState (handleSet req) s =
  let D := Int.wrap16
             (Z.rem (Int.wrap32 (Int.wrap32 (arg_hour req * 60)
                                 + arg_minute req)) 1440) in
  let zone := createForZoneIndex (arg_zone req) in
  let stats :=
    if isError zone then globalStats s
    else with_zoneId (getZoneId zone) (globalStats s) in
  (tt, mkMachine D (currentTime s) zone stats
         (if isError zone then eeprom_buffer s else stats)
         (if isError zone then eeprom_flash s else stats)
         (trace s ++ [SendHeader "Location" "/"; Send 302 "text/plain" ""])).
Proof.
  unfold handleSet, EEPROM_put, EEPROM_commit, sendHeader, send.
  fw_run. cbv zeta.
  destruct s as [D T z g b f tr]. fields.
  destruct (isError (createForZoneIndex (arg_zone req))); fw_run; fields;
    rewrite <- ?app_assoc; reflexivity.
Qed.

Lemma wrap32_sum (a b : Z) :
  Int.wrap32 (Int.wrap32 a + b) = Int.wrap32 (a + b).
Proof.
  unfold Int.wrap32, Int.wrap.
  change (2 ^ (32 - 1)) with 2147483648. change (2 ^ 32) with 4294967296.
  f_equal.
  replace ((a + 2147483648) mod 4294967296 - 2147483648 + b + 2147483648)
    with ((a + 2147483648) mod 4294967296 + b) by lia.
  rewrite Zplus_mod_idemp_l. f_equal. lia.
Qed.

Lemma handleSet_displayed (req : request) (s : machine) :
  currentDisplayedTime (execState (handleSet req) s) =
  Z.rem (Int.wrap32 (arg_hour req * 60 + arg_minute req)) 1440.
Proof.
  unfold execState. rewrite handleSet_run. cbv zeta. cbn [snd]. fields.
  rewrite wrap32_sum.
  apply wrap16_small. unfold Int.in_int16.
  pose proof (Z.rem_bound_abs
                (Int.wrap32 (arg_hour req * 60 + arg_minute req)) 1440).
  lia.
Qed.

Lemma handleSet_displayed_bound (req : request) (s : machine) :
  -1440 < currentDisplayedTime (execState (handleSet req) s) < 1440.
Proof.
  rewrite handleSet_displayed.
  pose proof (Z.rem_bound_abs
                (Int.wrap32 (arg_hour req * 60 + arg_minute req)) 1440).
  lia.
Qed.

(** C8, as the code has it.  [POST /set] leaves in the tracker the C++
    remainder by 1440 of hour * 60 + minute as a 32-bit [int], which takes
    the sign of the dividend: for all fields the value lies strictly between
    -1440 and 1440; when 0 <= hour * 60 + minute <= 2147483647 it is
    (hour * 60 + minute) mod 1440, in [0, 1440), so that 24:00 gives 0; when
    -2147483648 <= hour * 60 + minute < 0 it is -((-(hour * 60 + minute))
    mod 1440), in (-1440, 0]; and for all fields, also outside these two
    ranges, it is the truncated remainder by 1440 of hour * 60 + minute
    wrapped to 32 bits. *)
Theorem handleSet_truncated_remainder (req : request) (s : machine) :
  let total := arg_hour req * 60 + arg_minute req in
  let D' := currentDisplayedTime (execState (handleSet req) s) in
  -1440 < D' < 1440 /\
  (0 <= total <= 2147483647 -> D' = total mod 1440 /\ 0 <= D' < 1440) /\
  (-2147483648 <= total < 0 ->
     D' = - ((- total) mod 1440) /\ -1440 < D' <= 0) /\
  (arg_hour req = 24 -> arg_minute req = 0 -> D' = 0) /\
  D' = Z.rem (Int.wrap32 total) 1440.
Proof.
  cbv zeta. split; [apply handleSet_displayed_bound|].
  rewrite handleSet_displayed. split; [|split; [|split; [|reflexivity]]].
  - intros range. rewrite wrap32_small by lia.
    rewrite Z.rem_mod_nonneg by lia.
    pose proof (Z.mod_pos_bound (arg_hour req * 60 + arg_minute req) 1440).
    split; [reflexivity | lia].
  - intros range. rewrite wrap32_small by lia.
    assert (truncated :
              Z.rem (arg_hour req * 60 + arg_minute req) 1440 =
              - ((- (arg_hour req * 60 + arg_minute req)) mod 1440)).
    { rewrite <- (Z.rem_mod_nonneg (- _) 1440) by lia.
      rewrite Z.rem_opp_l by lia. lia. }
    rewrite truncated.
    pose proof (Z.mod_pos_bound (- (arg_hour req * 60 + arg_minute req)) 1440).
    split; [reflexivity | lia].
  - intros h m. rewrite h, m. reflexivity.
Qed.

End Operator.

Lemma handleSet_truncated_remainder_witness :
  currentDisplayedTime
    (execState (handleSet (ace := sample_zones) (mkRequest 24 0 0))
               (showing 600 600)) = 0 /\
  currentDisplayedTime
    (execState (handleSet (ace := sample_zones) (mkRequest 25 70 0))
               (showing 600 600)) = (25 * 60 + 70) mod 1440 /\
  currentDisplayedTime
    (execState (handleSet (ace := sample_zones) (mkRequest (-1) 0 0))
               (showing 600 600)) = - ((- ((-1) * 60 + 0)) mod 1440) /\
  currentDisplayedTime
    (execState (handleSet (ace := sample_zones) (mkRequest 40000000 0 0))
               (showing 600 600)) = -736.
Proof.
  split; [|split; [|split]].
  - exact (proj1 (proj2 (proj2 (proj2
             (handleSet_truncated_remainder (ace := sample_zones)
                (mkRequest 24 0 0) (showing 600 600))))) eq_refl eq_refl).
  - refine (proj1 (proj1 (proj2
              (handleSet_truncated_remainder (ace := sample_zones)
                 (mkRequest 25 70 0) (showing 600 600))) _)).
    cbn. lia.
  - refine (proj1 (proj1 (proj2 (proj2
              (handleSet_truncated_remainder (ace := sample_zones)
                 (mkRequest (-1) 0 0) (showing 600 600)))) _)).
    cbn. lia.
  - exact (proj2 (proj2 (proj2 (proj2
             (handleSet_truncated_remainder (ace := sample_zones)
                (mkRequest 40000000 0 0) (showing 600 600)))))).
Defined.

(** C8 as the specification words it fails for a negative field: hour = -1,
    minute = 0 leaves -60 in the tracker, which is not in [0, 1440) and is
    not (-60) mod 1440 = 1380. *)
Lemma handleSet_negative_hour :
  let D' := currentDisplayedTime
              (execState (handleSet (ace := sample_zones) (mkRequest (-1) 0 0))
                         (showing 600 600)) in
  D' = -60 /\ ~ (0 <= D' < 1440) /\ D' <> ((-1) * 60 + 0) mod 1440.
Proof.
  cbv zeta. split; [reflexivity | split].
  - vm_compute. intros [nonneg _]. apply nonneg. reflexivity.
  - vm_compute. discriminate.
Qed.

(** ** The zone submitted with an override *)

Section ZoneChoice.

Context {ace : AceTime}.

Lemma handleSet_effects (req : request) (s : machine) :
  effects (handleSet req) s = redirect.
Proof. unfold effects, execState. rewrite handleSet_run. reflexivity. Qed.

(** A zone index that resolves is activated and persisted. *)
Lemma handleSet_valid_zone (req : request) (s : machine) (id : Z) :
  let s' := execState (handleSet req) s in
  createForZoneIndex (arg_zone req) = TimeZoneFor id ->
  localZone s' = TimeZoneFor id /\
  zoneId (globalStats s') = id /\
  eeprom_flash s' = globalStats s' /\
  effects (handleSet req) s = redirect.
Proof.
  cbv zeta. intros resolves. rewrite handleSet_effects.
  unfold execState. rewrite handleSet_run. cbv zeta. rewrite resolves.
  repeat split.
Qed.

(** C9, on the code.  When the submitted index does not resolve,
    [handleSet] has already stored the manager's error value in [localZone]:
    the zone that was active is gone and the next [setCurrentTime] projects
    through the error value.  What does hold for such an index: the
    zone id in [globalStats] and the committed EEPROM record are unchanged
    and the response is the 302 redirect to "/". *)
Theorem handleSet_invalid_zone (req : request) (s : machine) :
  let s' := execState (handleSet req) s in
  createForZoneIndex (arg_zone req) = TimeZoneError ->
  localZone s' = TimeZoneError /\
  (localZone s <> TimeZoneError -> localZone s' <> localZone s) /\
  (forall now,
     currentTime (execState (setCurrentTime now) s') =
     let reading := forUnixSeconds64 now TimeZoneError in
     let T := Int.wrap16 (minute reading + hour reading * 60) in
     if second reading =? 59 then Int.wrap16 (T + 1) else T) /\
  zoneId (globalStats s') = zoneId (globalStats s) /\
  eeprom_flash s' = eeprom_flash s /\
  effects (handleSet req) s = redirect.
Proof.
  cbv zeta. intros unresolved. rewrite handleSet_effects.
  unfold execState. rewrite handleSet_run. cbv zeta. rewrite unresolved.
  cbn [snd isError]. fields.
  split; [reflexivity | split; [congruence | split]].
  - intros now. rewrite setCurrentTime_run. reflexivity.
  - repeat split.
Qed.

End ZoneChoice.

Lemma handleSet_invalid_zone_witness :
  let s := showing 600 600 in
  let s' := execState
              (handleSet (ace := sample_zones) (mkRequest 10 0 9999)) s in
  localZone s = TimeZoneFor 101 /\
  localZone s' = TimeZoneError /\
  zoneId (globalStats s') = 101 /\
  eeprom_flash s' = eeprom_flash s.
Proof.
  cbv zeta.
  destruct (handleSet_invalid_zone (ace := sample_zones)
              (mkRequest 10 0 9999) (showing 600 600) eq_refl)
    as [gone [_ [_ [kept [flash _]]]]].
  split; [reflexivity | split; [exact gone | split; [exact kept | exact flash]]].
Defined.

(** ** What the tracker holds between inputs *)

Section Invariant.

Context {ace : AceTime}.

Lemma housekeeping_clock (millis now : Z) (s : machine) :
  let s' := execState (housekeeping millis now) s in
  let reading := forUnixSeconds64 now (localZone s) in
  currentDisplayedTime s' = currentDisplayedTime s /\
  trace s' = trace s /\
  (uint8_reading reading ->
   currentTime s' =
     hour reading * 60 + minute reading
     + (if second reading =? 59 then 1 else 0)).
Proof.
  cbv zeta. unfold housekeeping, execState.
  rewrite run_bind, run_update. cbn [fst snd].
  set (s1 := with_globalStats _ s).
  pose proof (setCurrentTime_frame now s1) as frame. cbv zeta in frame.
  destruct frame as [displayed [_ [_ [_ traced]]]].
  split; [exact displayed | split; [exact traced |]].
  intros range. exact (setCurrentTime_target now s1 range).
Qed.

Lemma setup_clock (now : Z) (s : machine) :
  let s' := execState (setup now) s in
  let reading := forUnixSeconds64 now (localZone s) in
  uint8_reading reading ->
  currentTime s' =
    hour reading * 60 + minute reading
    + (if second reading =? 59 then 1 else 0) /\
  currentDisplayedTime s' = currentTime s'.
Proof.
  cbv zeta. intros range. unfold setup, digitalWrite, execState.
  fw_run. fields.
  set (s1 := with_trace _ (with_trace _ s)).
  split; [|reflexivity].
  exact (setCurrentTime_target now s1 range).
Qed.

Lemma tick_within_a_day (s : machine) :
  within_a_day s -> within_a_day (execState tick s).
Proof.
  unfold within_a_day. intros [displayed target]. unfold execState.
  rewrite tick_run. cbv zeta.
  destruct (Z.eqb_spec (currentDisplayedTime s) (currentTime s));
    [cbn [snd]; lia|].
  destruct (Z.ltb_spec (currentDisplayedTime s) (currentTime s)).
  - rewrite advance_run. cbn [snd]. fields.
    destruct (Z_lt_le_dec (currentDisplayedTime s) 1439).
    + rewrite tracker_after_advance_small by lia. lia.
    + rewrite tracker_after_advance_wrap by lia. lia.
  - destruct (Z.ltb_spec (currentTime s + 10) (currentDisplayedTime s));
      cbn [snd]; fields; [|lia].
    rewrite wrap16_small by (unfold Int.in_int16; lia). lia.
Qed.

Lemma serve_within_a_day (s : machine) (i : input) :
  within_a_day s -> admissible s i -> within_a_day (execState (serve i) s).
Proof.
  intros bounds ok. destruct i as [|millis now|req]; cbn [serve].
  - apply tick_within_a_day. exact bounds.
  - cbn [admissible] in ok.
    pose proof (housekeeping_clock millis now s) as clock. cbv zeta in clock.
    destruct clock as [displayed [_ target]]. specialize (target ok).
    unfold within_a_day in *. rewrite displayed, target.
    unfold uint8_reading in ok.
    destruct (second (forUnixSeconds64 now (localZone s)) =? 59); lia.
  - pose proof (handleSet_displayed_bound req s) as bound.
    unfold within_a_day in *. split; [lia|].
    unfold execState. rewrite handleSet_run. cbv zeta. cbn [snd]. fields. lia.
Qed.

(** C6, as the code has it.  At every return to [loop], in every reachable
    state, states reached after a rebase included, the tracker lies strictly
    above -1440 and at most at 1440. *)
Theorem displayed_within_a_day (s : machine) :
  reachable s -> -1440 < currentDisplayedTime s <= 1440.
Proof.
  intros reached. enough (bounds : within_a_day s) by exact (proj1 bounds).
  induction reached as [s now valid | s i reached IH ok].
  - pose proof (setup_clock now s (time_of_day_uint8 _ valid)) as clock.
    cbv zeta in clock. destruct clock as [target displayed].
    unfold within_a_day. rewrite displayed, target.
    unfold time_of_day in valid.
    destruct (second (forUnixSeconds64 now (localZone s)) =? 59); lia.
  - apply serve_within_a_day; assumption.
Qed.

End Invariant.

(** The specification's scenario 5 on the stand-in collaborator: boot at
    10:00:00, the operator sets 13:20, one tick. *)
Lemma scenario_far_ahead_reachable :
  let s0 := execState (setup (ace := sample_zones) 36000) (showing 0 0) in
  let s1 := execState (serve (ace := sample_zones)
                         (PostSet (mkRequest 13 20 0))) s0 in
  let s2 := execState (serve (ace := sample_zones) Tick) s1 in
  reachable (ace := sample_zones) s2.
Proof.
  cbv zeta. apply reachable_serve; [apply reachable_serve|]; try exact I.
  apply reachable_setup. unfold time_of_day. cbn. lia.
Qed.

Lemma displayed_within_a_day_witness :
  let s0 := execState (setup (ace := sample_zones) 36000) (showing 0 0) in
  let s1 := execState (serve (ace := sample_zones)
                         (PostSet (mkRequest 13 20 0))) s0 in
  let s2 := execState (serve (ace := sample_zones) Tick) s1 in
  -1440 < currentDisplayedTime s2 <= 1440.
Proof.
  exact (displayed_within_a_day (ace := sample_zones) _
           scenario_far_ahead_reachable).
Defined.

(** C6 as the specification words it fails after a rebase: in the reachable
    state of scenario 5 the tracker holds 800 - 1440 = -640. *)
Lemma displayed_negative_after_rebase :
  let s0 := execState (setup (ace := sample_zones) 36000) (showing 0 0) in
  let s1 := execState (serve (ace := sample_zones)
                         (PostSet (mkRequest 13 20 0))) s0 in
  let s2 := execState (serve (ace := sample_zones) Tick) s1 in
  reachable (ace := sample_zones) s2 /\
  currentDisplayedTime s1 = 800 /\ currentTime s1 = 600 /\
  currentDisplayedTime s2 = -640 /\
  ~ (0 <= currentDisplayedTime s2 < 1440).
Proof.
  cbv zeta. split; [exact scenario_far_ahead_reachable|].
  repeat split; try reflexivity.
  vm_compute. intros [nonneg _]. apply nonneg. reflexivity.
Qed.

(** ** Alternation of the active line *)

Lemma line_for_rebase (D : Z) :
  line_for (Int.wrap16 (D - 1440)) = line_for D.
Proof.
  rewrite !line_for_even, wrap16_even.
  replace (D - 1440) with (D + 2 * (-720)) by lia.
  rewrite Z.even_add_mul_2. reflexivity.
Qed.

Lemma line_for_advance (D : Z) :
  line_for (tracker_after_advance D) = other (line_for D).
Proof.
  rewrite !line_for_even, tracker_after_advance_even.
  destruct (Z.even D); reflexivity.
Qed.

Lemma other_differs (p : pin) : other p <> p.
Proof. destruct p; discriminate. Qed.

Lemma active_line_waveform (p : pin) : active_line (waveform p) = Some p.
Proof. destruct p; reflexivity. Qed.

Lemma tick_line (s : machine) :
  line_for (currentDisplayedTime (execState tick s)) =
  if currentDisplayedTime s <? currentTime s
  then other (line_for (currentDisplayedTime s))
  else line_for (currentDisplayedTime s).
Proof.
  unfold execState. rewrite tick_run. cbv zeta.
  destruct (Z.eqb_spec (currentDisplayedTime s) (currentTime s)) as [same|].
  - replace (currentDisplayedTime s <? currentTime s) with false
      by (symmetry; apply Z.ltb_ge; lia).
    reflexivity.
  - destruct (currentDisplayedTime s <? currentTime s).
    + rewrite advance_run. cbn [snd]. fields. apply line_for_advance.
    + destruct (currentTime s + 10 <? currentDisplayedTime s);
        cbn [snd]; fields; [apply line_for_rebase | reflexivity].
Qed.

Lemma alternates_from_any (p : option pin) (log : list observation) :
  alternates_from p log -> alternates_from None log.
Proof.
  destruct log as [|[q|] rest]; cbn; [trivial | | trivial].
  intros [_ tail]. split; [exact I | exact tail].
Qed.

Lemma alternates_adjacent (before after : list observation) (a b : pin) :
  forall expected,
    alternates_from expected (before ++ Pulse a :: Pulse b :: after) ->
    b = other a.
Proof.
  induction before as [|[p|] before IH]; intros expected; cbn.
  - intros [_ [next _]]. exact next.
  - intros [_ tail]. exact (IH _ tail).
  - intros tail. exact (IH _ tail).
Qed.

Section Alternation.

Context {ace : AceTime}.

Lemma housekeeping_effects (millis now : Z) (s : machine) :
  effects (serve (Housekeeping millis now)) s = [].
Proof.
  unfold effects. cbn [serve].
  pose proof (housekeeping_clock millis now (with_trace [] s)) as clock.
  cbv zeta in clock. destruct clock as [_ [traced _]]. exact traced.
Qed.

Lemma history_alternates (inputs : list input) :
  forall s,
    alternates_from (Some (line_for (currentDisplayedTime s)))
                    (history inputs s).
Proof.
  induction inputs as [|i rest IH]; intros s; cbn [history]; [exact I|].
  destruct i as [|millis now|req].
  - unfold observe. cbn [serve]. rewrite tick_effects.
    specialize (IH (execState tick s)). rewrite tick_line in IH.
    destruct (currentDisplayedTime s <? currentTime s).
    + rewrite active_line_waveform. cbn. split; [reflexivity | exact IH].
    + cbn. exact IH.
  - unfold observe. rewrite housekeeping_effects. cbn [active_line app].
    specialize (IH (execState (serve (Housekeeping millis now)) s)).
    cbn [serve] in *.
    pose proof (housekeeping_clock millis now s) as clock.
    cbv zeta in clock. destruct clock as [displayed _].
    rewrite displayed in IH. exact IH.
  - cbn. exact (alternates_from_any _ _ (IH _)).
Qed.

(** C7, as the code has it.  In any run from any state, two pulses with no
    operator override between them (ticks that idle or rebase and
    refreshes of the target may lie between them) use different lines. *)
Theorem consecutive_pulses_alternate
    (inputs : list input) (s : machine)
    (before after : list observation) (a b : pin) :
  history inputs s = before ++ Pulse a :: Pulse b :: after ->
  b <> a /\ b = other a.
Proof.
  intros adjacent.
  pose proof (history_alternates inputs s) as alternates.
  rewrite adjacent in alternates.
  apply alternates_adjacent in alternates.
  split; [|exact alternates].
  rewrite alternates. apply other_differs.
Qed.

End Alternation.

Lemma consecutive_pulses_alternate_witness :
  history (ace := sample_zones)
    [Tick; Housekeeping 0 32400; Tick; Tick] (showing 600 601)
  = [Pulse OUT1; Pulse OUT2] /\
  OUT2 <> OUT1.
Proof.
  split; [reflexivity|].
  exact (proj1 (consecutive_pulses_alternate (ace := sample_zones)
                  [Tick; Housekeeping 0 32400; Tick; Tick] (showing 600 601)
                  [] [] OUT1 OUT2 eq_refl)).
Defined.

(** C7 as the specification words it fails across an operator override:
    a pulse from minute 600 on OUT1, the operator sets 10:00 again, and the
    next pulse is on OUT1 as well. *)
Lemma override_repeats_active_line :
  let log := history (ace := sample_zones)
               [Tick; PostSet (mkRequest 10 0 0); Tick] (showing 600 700) in
  log = [Pulse OUT1; Override; Pulse OUT1] /\
  pulse_lines log = [OUT1; OUT1].
Proof. split; reflexivity. Qed.

(** ** Catching up after a rebase *)

Lemma ticks_step (n : nat) (s : machine) :
  execState (ticks (S n)) s = execState (ticks n) (execState tick s).
Proof.
  unfold execState. cbn [ticks]. rewrite run_bind. reflexivity.
Qed.

Lemma tick_target (s : machine) :
  currentTime (execState tick s) = currentTime s.
Proof.
  unfold execState. rewrite tick_run. cbv zeta.
  destruct (currentDisplayedTime s =? currentTime s); [reflexivity|].
  destruct (currentDisplayedTime s <? currentTime s).
  - rewrite advance_run. reflexivity.
  - destruct (currentTime s + 10 <? currentDisplayedTime s); reflexivity.
Qed.

Lemma tick_behind (s : machine) :
  -32768 <= currentDisplayedTime s < currentTime s ->
  currentTime s <= 1439 ->
  currentDisplayedTime (execState tick s) = currentDisplayedTime s + 1.
Proof.
  intros behind day. unfold execState.
  rewrite tick_pulse by lia. rewrite advance_run. cbn [snd]. fields.
  apply tracker_after_advance_small. lia.
Qed.

Lemma ticks_walk (n : nat) :
  forall s,
    -32768 <= currentDisplayedTime s ->
    currentDisplayedTime s + Z.of_nat n <= currentTime s ->
    currentTime s <= 1439 ->
    currentDisplayedTime (execState (ticks n) s)
      = currentDisplayedTime s + Z.of_nat n /\
    currentTime (execState (ticks n) s) = currentTime s.
Proof.
  induction n as [|n IH]; intros s low behind day.
  - cbn. split; [lia | reflexivity].
  - rewrite ticks_step.
    pose proof (tick_behind s ltac:(lia) day) as moved.
    pose proof (tick_target s) as kept.
    destruct (IH (execState tick s)) as [displayed target]; lia.
Qed.

(** C10.  Subtracting 1440 never changes the line the next pulse ramps;
    [advance()] on a negative tracker value down to -1429 adds exactly one;
    and when a tick rebases (target T at least 0, tracker more than ten
    minutes ahead and at most 1440), then with the target fixed and ticks
    only, every tick before arrival emits one pulse and adds exactly one to
    the tracker, after T - (D - 1440) ticks the tracker equals T, and the
    next tick changes nothing. *)
Theorem rebase_then_walk (s : machine) :
  let D := currentDisplayedTime s in
  let T := currentTime s in
  let rebased := execState tick s in
  (forall d, line_for (Int.wrap16 (d - 1440)) = line_for d) /\
  (forall m, -1429 <= currentDisplayedTime m < 0 ->
     currentDisplayedTime (execState advance m) = currentDisplayedTime m + 1) /\
  (0 <= T -> T + 10 < D <= 1440 ->
   effects tick s = [] /\
   currentDisplayedTime rebased = D - 1440 /\
   line_for (currentDisplayedTime rebased) = line_for D /\
   (forall k : nat,
      Z.of_nat k < T - (D - 1440) ->
      let before := execState (ticks k) rebased in
      currentDisplayedTime before = D - 1440 + Z.of_nat k /\
      effects tick before = waveform (line_for (currentDisplayedTime before)) /\
      currentDisplayedTime (execState tick before)
        = currentDisplayedTime before + 1) /\
   (let arrived := execState (ticks (Z.to_nat (T - (D - 1440)))) rebased in
    currentDisplayedTime arrived = T /\
    effects tick arrived = [] /\
    execState tick arrived = arrived)).
Proof.
  cbv zeta. split; [exact line_for_rebase | split].
  { intros m negative. rewrite advance_displayed.
    apply tracker_after_advance_small. lia. }
  intros target ahead.
  assert (displayed : currentDisplayedTime (execState tick s)
                      = currentDisplayedTime s - 1440).
  { unfold execState. rewrite tick_rebase by lia. cbn [snd]. fields.
    apply wrap16_small. unfold Int.in_int16. lia. }
  pose proof (tick_target s) as kept.
  split; [|split; [exact displayed | split; [|split]]].
  - rewrite tick_effects.
    destruct (Z.ltb_spec (currentDisplayedTime s) (currentTime s));
      [lia | reflexivity].
  - rewrite displayed. rewrite <- (line_for_rebase (currentDisplayedTime s)).
    rewrite wrap16_small by (unfold Int.in_int16; lia). reflexivity.
  - intros k early.
    destruct (ticks_walk k (execState tick s)) as [walked fixed]; try lia.
    rewrite displayed in walked.
    split; [exact walked | split].
    + rewrite tick_effects, walked, fixed, kept.
      destruct (Z.ltb_spec (currentDisplayedTime s - 1440 + Z.of_nat k)
                           (currentTime s)); [reflexivity | lia].
    + apply tick_behind; lia.
  - destruct (ticks_walk (Z.to_nat (currentTime s
                                    - (currentDisplayedTime s - 1440)))
                         (execState tick s)) as [walked fixed]; try lia.
    rewrite displayed in walked. rewrite Z2Nat.id in walked by lia.
    split; [lia | split].
    + rewrite tick_effects, walked, fixed, kept.
      destruct (Z.ltb_spec (currentDisplayedTime s - 1440
                            + (currentTime s - (currentDisplayedTime s - 1440)))
                           (currentTime s)); [lia | reflexivity].
    + unfold execState at 1. rewrite tick_idle; [reflexivity|].
      left. lia.
Qed.

Lemma rebase_then_walk_witness :
  currentDisplayedTime (execState advance (showing (-1429) 600)) = -1429 + 1 /\
  currentDisplayedTime (execState tick (showing 800 600)) = 800 - 1440 /\
  currentDisplayedTime
    (execState (ticks (Z.to_nat 1240)) (execState tick (showing 800 600)))
  = 600.
Proof.
  assert (target : 0 <= currentTime (showing 800 600)) by (cbn; lia).
  assert (ahead : currentTime (showing 800 600) + 10
                  < currentDisplayedTime (showing 800 600) <= 1440)
    by (cbn; lia).
  destruct (rebase_then_walk (showing 800 600)) as [_ [negative walk]].
  destruct (walk target ahead) as [_ [rebased [_ [_ [arrived _]]]]].
  split; [|split; [exact rebased | exact arrived]].
  apply (negative (showing (-1429) 600)). cbn. lia.
Defined.

(** * Properties of the rest of the firmware *)

(** ** The time the page shows *)

Lemma page_fields (D : Z) :
  -1440 < D <= 1440 ->
  let hour := Z.rem (Z.quot (1440 + D) 60) 24 in
  let minute := Z.rem (1440 + D) 60 in
  0 <= hour <= 23 /\ 0 <= minute <= 59 /\ hour * 60 + minute = D mod 1440.
Proof.
  intros range. cbv zeta.
  rewrite Z.quot_div_nonneg by lia.
  rewrite !Z.rem_mod_nonneg by (try apply Z.div_pos; lia).
  Z.div_mod_to_equations. lia.
Qed.

Lemma page_of_time (s : machine) (h m : Z) :
  0 <= h <= 23 -> 0 <= m <= 59 ->
  currentDisplayedTime s = h * 60 + m ->
  handleRoot_hour s = h /\ handleRoot_minute s = m.
Proof.
  intros hours minutes displayed. unfold handleRoot_hour, handleRoot_minute.
  rewrite displayed.
  rewrite Z.quot_div_nonneg by lia.
  rewrite !Z.rem_mod_nonneg by (try apply Z.div_pos; lia).
  Z.div_mod_to_equations. lia.
Qed.

Section Page.

Context {ace : AceTime}.

Lemma reachable_within_a_day (s : machine) :
  reachable s -> within_a_day s.
Proof.
  induction 1 as [s now valid | s i reached IH ok].
  - pose proof (setup_clock now s (time_of_day_uint8 _ valid)) as clock.
    cbv zeta in clock. destruct clock as [target displayed].
    unfold within_a_day. rewrite displayed, target.
    unfold time_of_day in valid.
    destruct (second (forUnixSeconds64 now (localZone s)) =? 59); lia.
  - apply serve_within_a_day; assumption.
Qed.

(** Whenever the page is built, its hour field is between 0 and 23, its
    minute field between 0 and 59, and together they are the tracker's value
    modulo 1440, also while the tracker is negative after a rebase or holds
    1440 after a boot at 23:59:59. *)
Theorem page_shows_time_of_day (s : machine) :
  reachable s ->
  0 <= handleRoot_hour s <= 23 /\
  0 <= handleRoot_minute s <= 59 /\
  handleRoot_hour s * 60 + handleRoot_minute s
    = currentDisplayedTime s mod 1440.
Proof.
  intros reached. apply reachable_within_a_day in reached.
  exact (page_fields _ (proj1 reached)).
Qed.

(** The page shows what the operator has just set: after [POST /set] with
    hour in 0..23 and minute in 0..59 the form fields are that hour and that
    minute. *)
Theorem page_after_set (req : request) (s : machine) :
  0 <= arg_hour req <= 23 -> 0 <= arg_minute req <= 59 ->
  let s' := execState (handleSet req) s in
  handleRoot_hour s' = arg_hour req /\ handleRoot_minute s' = arg_minute req.
Proof.
  intros hours minutes. cbv zeta.
  apply page_of_time; [exact hours | exact minutes |].
  rewrite handleSet_displayed, wrap32_small by lia.
  apply Z.rem_small. lia.
Qed.

(** Sending the form back as the page shows it (any zone) leaves the
    tracker at its value modulo 1440, keeps the line of the next pulse, and
    the page shows the same time again. *)
Theorem resubmit_page (s : machine) (zone : Z) :
  -1440 < currentDisplayedTime s <= 1440 ->
  let req := mkRequest (handleRoot_hour s) (handleRoot_minute s) zone in
  let s' := execState (handleSet req) s in
  currentDisplayedTime s' = currentDisplayedTime s mod 1440 /\
  line_for (currentDisplayedTime s') = line_for (currentDisplayedTime s) /\
  handleRoot_hour s' = handleRoot_hour s /\
  handleRoot_minute s' = handleRoot_minute s.
Proof.
  intros range. cbv zeta.
  pose proof (page_fields _ range) as shown. cbv zeta in shown.
  fold (handleRoot_hour s) in shown. fold (handleRoot_minute s) in shown.
  destruct shown as [hours [minutes total]].
  assert (set : currentDisplayedTime
                  (execState
                     (handleSet (mkRequest (handleRoot_hour s)
                                           (handleRoot_minute s) zone)) s)
                = currentDisplayedTime s mod 1440).
  { rewrite handleSet_displayed. cbn [arg_hour arg_minute].
    rewrite wrap32_small by lia. rewrite total.
    apply Z.rem_small. apply Z.mod_pos_bound. lia. }
  split; [exact set | split].
  - rewrite set, !line_for_even.
    rewrite (Z.mod_eq (currentDisplayedTime s) 1440) by lia.
    replace (currentDisplayedTime s - 1440 * (currentDisplayedTime s / 1440))
      with (currentDisplayedTime s
            + 2 * (- 720 * (currentDisplayedTime s / 1440))) by lia.
    rewrite Z.even_add_mul_2. reflexivity.
  - apply page_of_time; [exact hours | exact minutes |].
    rewrite set. symmetry. exact total.
Qed.

End Page.

(** A rebasing tick does not change what the page shows. *)
Theorem page_unchanged_by_rebase (s : machine) :
  0 <= currentTime s ->
  currentTime s + 10 < currentDisplayedTime s <= 1440 ->
  handleRoot_hour (execState tick s) = handleRoot_hour s /\
  handleRoot_minute (execState tick s) = handleRoot_minute s.
Proof.
  intros target ahead. unfold handleRoot_hour, handleRoot_minute, execState.
  rewrite tick_rebase by lia. cbn [snd]. fields.
  rewrite wrap16_small by (unfold Int.in_int16; lia).
  rewrite !Z.quot_div_nonneg by lia.
  rewrite !Z.rem_mod_nonneg by (try apply Z.div_pos; lia).
  Z.div_mod_to_equations. lia.
Qed.

Lemma page_shows_time_of_day_witness :
  let s0 := execState (setup (ace := sample_zones) 36000) (showing 0 0) in
  let s1 := execState (serve (ace := sample_zones)
                         (PostSet (mkRequest 13 20 0))) s0 in
  let s2 := execState (serve (ace := sample_zones) Tick) s1 in
  currentDisplayedTime s2 = -640 /\
  handleRoot_hour s2 * 60 + handleRoot_minute s2 = (-640) mod 1440.
Proof.
  cbv zeta. split; [reflexivity|].
  exact (proj2 (proj2 (page_shows_time_of_day (ace := sample_zones) _
                         scenario_far_ahead_reachable))).
Defined.

Lemma page_after_set_witness :
  let s' := execState (handleSet (ace := sample_zones) (mkRequest 23 59 1))
                      (showing 600 600) in
  handleRoot_hour s' = 23 /\ handleRoot_minute s' = 59.
Proof.
  cbv zeta.
  apply (page_after_set (ace := sample_zones) (mkRequest 23 59 1)
           (showing 600 600)); cbn; lia.
Defined.

Lemma resubmit_page_witness :
  let s := showing (-640) 600 in
  let req := mkRequest (handleRoot_hour s) (handleRoot_minute s) 0 in
  currentDisplayedTime (execState (handleSet (ace := sample_zones) req) s)
    = (-640) mod 1440.
Proof.
  cbv zeta.
  refine (proj1 (resubmit_page (ace := sample_zones) (showing (-640) 600) 0 _)).
  cbn. lia.
Defined.

Lemma page_unchanged_by_rebase_witness :
  handleRoot_hour (execState tick (showing 800 600))
    = handleRoot_hour (showing 800 600) /\
  handleRoot_minute (execState tick (showing 800 600))
    = handleRoot_minute (showing 800 600).
Proof.
  apply page_unchanged_by_rebase; cbn; lia.
Defined.

(** ** The logger *)

Lemma last_n_all {A : Type} (n : nat) (l : list A) :
  (List.length l <= n)%nat -> last_n n l = l.
Proof.
  intros short. unfold last_n.
  replace (List.length l - n)%nat with 0%nat by lia. reflexivity.
Qed.

Lemma last_n_length {A : Type} (n : nat) (l : list A) :
  (List.length (last_n n l) <= n)%nat.
Proof. unfold last_n. rewrite length_skipn. lia. Qed.

Lemma last_n_tl {A : Type} (n : nat) (a b : list A) :
  (n <= List.length (tl a))%nat ->
  last_n n (tl a ++ b) = last_n n (a ++ b).
Proof.
  destruct a as [|x a]; [reflexivity|]. cbn [tl]. intros long.
  unfold last_n. change ((x :: a) ++ b) with (x :: (a ++ b)).
  cbn [List.length].
  replace (S (List.length (a ++ b)) - n)%nat
    with (S (List.length (a ++ b) - n)) by (rewrite length_app; lia).
  reflexivity.
Qed.

Lemma last_n_app_last_n {A : Type} (n : nat) (a b : list A) :
  last_n n (last_n n a ++ b) = last_n n (a ++ b).
Proof.
  unfold last_n at 2.
  remember (List.length a - n)%nat as k eqn:drop.
  revert a drop. induction k as [|k IH]; intros a drop; [reflexivity|].
  destruct a as [|x a]; [discriminate drop|].
  cbn [skipn]. cbn [List.length] in drop.
  rewrite IH by lia.
  change (last_n n (tl (x :: a) ++ b) = last_n n ((x :: a) ++ b)).
  apply last_n_tl. cbn [tl]. lia.
Qed.

Lemma Logger_write_newline (lg : Logger) :
  (List.length (lastItems lg) <= 100)%nat ->
  snd (Logger_write "010" lg)
  = mkLogger (last_n 100 (lastItems lg ++ [currentLine lg])) "".
Proof.
  intros capacity. unfold Logger_write. cbn [Ascii.eqb Bool.eqb snd].
  f_equal.
  destruct (Nat.ltb_spec 100 (List.length (lastItems lg ++ [currentLine lg])))
    as [full | room].
  - rewrite length_app in full. cbn [List.length] in full.
    unfold last_n. rewrite length_app. cbn [List.length].
    replace (List.length (lastItems lg) + 1 - 100)%nat with 1%nat by lia.
    destruct (lastItems lg ++ [currentLine lg]); reflexivity.
  - symmetry. apply last_n_all. exact room.
Qed.

(** The logger keeps the newest hundred lines: starting with at most a
    hundred lines, after any bytes are printed [lastItems] holds the last
    hundred of the lines it held followed by the lines the bytes complete,
    in order, and [currentLine] holds the line left open. *)
Theorem Logger_keeps_newest (bytes : list ascii) (lg : Logger) :
  (List.length (lastItems lg) <= 100)%nat ->
  let after := Logger_print bytes lg in
  lastItems after
    = last_n 100 (lastItems lg ++ fst (completed_lines (currentLine lg) bytes)) /\
  currentLine after = snd (completed_lines (currentLine lg) bytes) /\
  (List.length (lastItems after) <= 100)%nat.
Proof.
  cbv zeta. revert lg. induction bytes as [|c rest IH]; intros lg capacity.
  - cbn. rewrite app_nil_r, last_n_all by exact capacity.
    repeat split. exact capacity.
  - cbn [Logger_print completed_lines].
    destruct (Ascii.eqb_spec c "010") as [newline | other].
    + subst c. rewrite Logger_write_newline by exact capacity.
      specialize (IH (mkLogger
                        (last_n 100 (lastItems lg ++ [currentLine lg])) "")
                     (last_n_length _ _)).
      cbn [lastItems currentLine] in IH.
      destruct (completed_lines "" rest) as [lines open].
      cbn [fst snd] in *. destruct IH as [items [current bound]].
      split; [|split; [exact current | exact bound]].
      rewrite items, last_n_app_last_n, <- app_assoc. reflexivity.
    + assert (step : snd (Logger_write c lg)
                     = mkLogger (lastItems lg) (currentLine lg ++ String c "")).
      { unfold Logger_write. destruct (Ascii.eqb_spec c "010"); [contradiction|].
        reflexivity. }
      rewrite step.
      exact (IH (mkLogger (lastItems lg) (currentLine lg ++ String c ""))
                capacity).
Qed.

Lemma Logger_keeps_newest_witness :
  let lg := mkLogger (repeat "old"%string 100) "par"%string in
  let after := Logger_print ["t"; "010"; "x"]%char lg in
  lastItems after = repeat "old"%string 99 ++ ["part"%string] /\
  currentLine after = "x"%string.
Proof.
  cbv zeta.
  assert (capacity : (List.length
                        (lastItems (mkLogger (repeat "old"%string 100)
                                             "par"%string)) <= 100)%nat).
  { cbn [lastItems]. rewrite repeat_length. lia. }
  destruct (Logger_keeps_newest ["t"; "010"; "x"]%char _ capacity)
    as [items [current _]].
  split; [exact items | exact current].
Defined.

(** ** The uptime shown on the page *)

Lemma string_app_assoc (a b c : string) :
  ((a ++ b) ++ c = a ++ (b ++ c))%string.
Proof.
  induction a as [|x a IH]; cbn; [reflexivity | rewrite IH; reflexivity].
Qed.

(** [secondsToString] prints hours below 24, minutes and seconds below 60.
    Above 86400 seconds it prints a day count first, and the four numbers
    add up to the argument.  Up to 86400 seconds it prints no day count and
    the three numbers add up to the argument modulo 86400: exactly one day
    prints like zero seconds. *)
Theorem secondsToString_fields (seconds : Z) :
  0 <= seconds ->
  exists h m sec,
    0 <= h < 24 /\ 0 <= m < 60 /\ 0 <= sec < 60 /\
    let clock := (String_decimal h ++ "h " ++ String_decimal m ++ "m "
                  ++ String_decimal sec ++ "s")%string in
    (seconds <= 86400 ->
     secondsToString seconds = clock /\
     h * 3600 + m * 60 + sec = seconds mod 86400) /\
    (86400 < seconds ->
     exists d,
       1 <= d /\
       secondsToString seconds = (String_decimal d ++ "d " ++ clock)%string /\
       d * 86400 + h * 3600 + m * 60 + sec = seconds) /\
    (seconds = 86400 -> secondsToString seconds = secondsToString 0).
Proof.
  intros nonneg.
  exists ((seconds / 3600) mod 24), ((seconds / 60) mod 60), (seconds mod 60).
  split; [apply Z.mod_pos_bound; lia|].
  split; [apply Z.mod_pos_bound; lia|].
  split; [apply Z.mod_pos_bound; lia|].
  cbv zeta. split; [|split].
  - intros short. unfold secondsToString. cbv zeta.
    destruct (Z.ltb_spec 86400 seconds) as [long | _]; [lia|].
    split.
    + cbn [append]. rewrite !string_app_assoc. reflexivity.
    + Z.div_mod_to_equations. lia.
  - intros long. exists (seconds / 86400).
    split; [Z.div_mod_to_equations; lia | split].
    + unfold secondsToString. cbv zeta.
      destruct (Z.ltb_spec 86400 seconds) as [_ | short]; [|lia].
      rewrite !string_app_assoc. reflexivity.
    + Z.div_mod_to_equations. lia.
  - intros day. subst seconds. reflexivity.
Qed.

Lemma secondsToString_fields_witness :
  exists h m sec,
    0 <= h < 24 /\ 0 <= m < 60 /\ 0 <= sec < 60 /\
    secondsToString 90061
      = (String_decimal 1 ++ "d " ++ String_decimal h ++ "h "
         ++ String_decimal m ++ "m " ++ String_decimal sec ++ "s")%string /\
    1 * 86400 + h * 3600 + m * 60 + sec = 90061.
Proof.
  destruct (secondsToString_fields 90061 ltac:(lia))
    as [h [m [sec [hours [minutes [secs [_ [long _]]]]]]]].
  destruct (long ltac:(lia)) as [d [_ [printed total]]].
  exists h, m, sec.
  assert (one : d = 1) by lia. subst d.
  repeat split; try lia; assumption.
Defined.

(** ** Loading the persisted record *)

Section Restore.

Context {ace : AceTime} {ids : ZoneIds}.

Lemma readFromEEProm_run (s : machine) :
  runState readFromEEProm s =
  let stored := eeprom_buffer s in
  let g1 := if magicNumber stored =? EEPROM_MAGIC_NUMBER then stored
            else mkStats EEPROM_MAGIC_NUMBER 0 0 0 0 kZoneIdEurope_Berlin in
  let g2 := with_previousSecondsTotal (uptimeSecondsTotal g1) g1 in
  let resolves := negb (isError (createForZoneId (zoneId g2))) in
  let g3 := if resolves then g2 else with_zoneId kZoneIdEurope_Berlin g2 in
  let record := if resolves then g1 else g3 in
  (tt, mkMachine (currentDisplayedTime s) (currentTime s)
         (createForZoneId (zoneId g3)) (with_uptimeSeconds 0 g3)
         record record (trace s)).
Proof.
  unfold readFromEEProm, EEPROM_get, EEPROM_put, EEPROM_commit.
  destruct s as [D T z g b f tr]. cbv zeta. fw_run. fields.
  destruct (magicNumber b =? EEPROM_MAGIC_NUMBER); cbn [negb]; fw_run; fields;
    match goal with
    | |- context [isError (createForZoneId ?id)] =>
        destruct (isError (createForZoneId id)) eqn:unresolved
    end; cbn [negb]; fw_run; fields; try rewrite unresolved; reflexivity.
Qed.

(** Whatever the EEPROM holds, after [readFromEEProm] the record in use
    carries the magic number, a session uptime of 0 and the stored total as
    the previous total; the active zone is the one the manager creates for
    the record's zone id; what is committed is what the buffer holds; and
    the tracker, the target and the pins are untouched.  If the manager
    knows the default zone, the active zone is not the error value. *)
Theorem readFromEEProm_wellformed (s : machine) :
  let s' := execState readFromEEProm s in
  magicNumber (globalStats s') = EEPROM_MAGIC_NUMBER /\
  uptimeSeconds (globalStats s') = 0 /\
  previousSecondsTotal (globalStats s') = uptimeSecondsTotal (globalStats s') /\
  localZone s' = createForZoneId (zoneId (globalStats s')) /\
  eeprom_flash s' = eeprom_buffer s' /\
  currentDisplayedTime s' = currentDisplayedTime s /\
  currentTime s' = currentTime s /\
  trace s' = trace s /\
  (isError (createForZoneId kZoneIdEurope_Berlin) = false ->
   isError (localZone s') = false).
Proof.
  cbv zeta. unfold execState. rewrite readFromEEProm_run. cbv zeta.
  cbn [snd]. fields.
  destruct (Z.eqb_spec (magicNumber (eeprom_buffer s)) EEPROM_MAGIC_NUMBER)
    as [valid | corrupted];
    match goal with
    | |- context [isError (createForZoneId ?id)] =>
        destruct (isError (createForZoneId id)) eqn:unresolved
    end; cbn [negb]; repeat split; try assumption; try discriminate;
    cbn; auto.
Qed.

(** A record without the magic number is replaced by the defaults: all
    counters 0 and the default zone id, in use (apart from the fields set
    on every load, which are 0 as well) and committed to the EEPROM. *)
Theorem readFromEEProm_corrupted (s : machine) :
  magicNumber (eeprom_buffer s) <> EEPROM_MAGIC_NUMBER ->
  let s' := execState readFromEEProm s in
  let defaults := mkStats EEPROM_MAGIC_NUMBER 0 0 0 0 kZoneIdEurope_Berlin in
  globalStats s' = defaults /\ eeprom_flash s' = defaults.
Proof.
  intros corrupted. cbv zeta. unfold execState.
  rewrite readFromEEProm_run. cbv zeta. cbn [snd]. fields.
  destruct (Z.eqb_spec (magicNumber (eeprom_buffer s)) EEPROM_MAGIC_NUMBER)
    as [valid | _]; [contradiction|].
  cbn [with_previousSecondsTotal zoneId uptimeSecondsTotal magicNumber
       uptimeSeconds previousSecondsTotal reboots].
  destruct (isError (createForZoneId kZoneIdEurope_Berlin)); cbn [negb];
    split; reflexivity.
Qed.

(** A record with the magic number keeps its reboot count and its uptime
    total.  Its zone id is kept, and nothing is rewritten, when the manager
    resolves it; otherwise the default zone id replaces it, in use and in
    the committed record. *)
Theorem readFromEEProm_valid (s : machine) :
  magicNumber (eeprom_buffer s) = EEPROM_MAGIC_NUMBER ->
  let stored := eeprom_buffer s in
  let s' := execState readFromEEProm s in
  reboots (globalStats s') = reboots stored /\
  uptimeSecondsTotal (globalStats s') = uptimeSecondsTotal stored /\
  (isError (createForZoneId (zoneId stored)) = false ->
   zoneId (globalStats s') = zoneId stored /\ eeprom_flash s' = stored) /\
  (isError (createForZoneId (zoneId stored)) = true ->
   zoneId (globalStats s') = kZoneIdEurope_Berlin /\
   zoneId (eeprom_flash s') = kZoneIdEurope_Berlin /\
   reboots (eeprom_flash s') = reboots stored /\
   uptimeSecondsTotal (eeprom_flash s') = uptimeSecondsTotal stored).
Proof.
  intros valid. cbv zeta. unfold execState.
  rewrite readFromEEProm_run. cbv zeta. cbn [snd]. fields.
  rewrite valid, Z.eqb_refl.
  cbn [with_previousSecondsTotal zoneId].
  destruct (isError (createForZoneId (zoneId (eeprom_buffer s))));
    cbn [negb]; repeat split; intros; try discriminate; reflexivity.
Qed.

End Restore.

Lemma readFromEEProm_corrupted_witness :
  let s := power_on (ids := sample_ids) (mkStats 0 7 7 7 7 7) in
  globalStats (execState (readFromEEProm (ids := sample_ids)) s)
    = mkStats EEPROM_MAGIC_NUMBER 0 0 0 0 102.
Proof.
  cbv zeta.
  refine (proj1 (readFromEEProm_corrupted (ids := sample_ids)
                   (power_on (ids := sample_ids) (mkStats 0 7 7 7 7 7)) _)).
  cbn. discriminate.
Defined.

Lemma readFromEEProm_valid_witness :
  let stored := mkStats EEPROM_MAGIC_NUMBER 50 900 800 4 999 in
  let s' := execState (readFromEEProm (ids := sample_ids))
                      (power_on (ids := sample_ids) stored) in
  reboots (globalStats s') = 4 /\
  uptimeSecondsTotal (globalStats s') = 900 /\
  zoneId (globalStats s') = 102 /\
  zoneId (eeprom_flash s') = 102.
Proof.
  cbv zeta.
  destruct (readFromEEProm_valid (ids := sample_ids)
              (power_on (ids := sample_ids)
                 (mkStats EEPROM_MAGIC_NUMBER 50 900 800 4 999)) eq_refl)
    as [count [total [_ fallback]]].
  destruct (fallback eq_refl) as [used [committed _]].
  repeat split; assumption.
Defined.

Lemma readFromEEProm_wellformed_witness :
  let s' := execState (readFromEEProm (ids := sample_ids))
              (power_on (ids := sample_ids)
                 (mkStats EEPROM_MAGIC_NUMBER 50 900 800 4 999)) in
  isError (localZone s') = false.
Proof.
  cbv zeta.
  exact (proj2 (proj2 (proj2 (proj2 (proj2 (proj2 (proj2 (proj2
           (readFromEEProm_wellformed (ids := sample_ids)
              (power_on (ids := sample_ids)
                 (mkStats EEPROM_MAGIC_NUMBER 50 900 800 4 999))))))))))
           eq_refl).
Defined.

(** ** Boot, and what reaches the EEPROM *)

Section Persistence.

Context {ace : AceTime} {ids : ZoneIds}.

Lemma boot_run (now : Z) (s : machine) :
  execState (boot now) s =
  let r := execState readFromEEProm s in
  let g := with_reboots ((reboots (globalStats r) + 1) mod 2 ^ 16)
                        (with_uptimeSeconds 0 (globalStats r)) in
  execState (setup now) (with_eeprom_buffer g (with_globalStats g r)).
Proof.
  cbv zeta. unfold boot, setup, EEPROM_put, digitalWrite, execState.
  rewrite run_bind. cbn [fst snd].
  set (r := snd (runState readFromEEProm s)).
  fw_run. rewrite !setCurrentTime_run. cbv zeta. cbn [fst snd].
  destruct r as [D T z g b f tr]. fields. reflexivity.
Qed.

(** [setup()] ends in a state the run invariants start from: when the time
    read at its end is a time of day, the state is reachable, the tracker
    shows the target and lies between 0 and 1440. *)
Theorem boot_reachable (now : Z) (s : machine) :
  time_of_day
    (forUnixSeconds64 now (localZone (execState readFromEEProm s))) ->
  let b := execState (boot now) s in
  reachable b /\
  currentDisplayedTime b = currentTime b /\
  0 <= currentDisplayedTime b <= 1440.
Proof.
  intros valid. cbv zeta. rewrite boot_run. cbv zeta.
  set (mid := with_eeprom_buffer _ _).
  assert (valid' : time_of_day (forUnixSeconds64 now (localZone mid)))
    by exact valid.
  split; [exact (reachable_setup mid now valid')|].
  pose proof (setup_clock now mid (time_of_day_uint8 _ valid')) as clock.
  cbv zeta in clock. destruct clock as [target displayed].
  split; [exact displayed|].
  rewrite displayed, target. unfold time_of_day in valid'.
  destruct (second (forUnixSeconds64 now (localZone mid)) =? 59); lia.
Qed.

Lemma boot_stats (now : Z) (s : machine) :
  let r := execState readFromEEProm s in
  let b := execState (boot now) s in
  globalStats b
    = with_reboots ((reboots (globalStats r) + 1) mod 2 ^ 16)
                   (with_uptimeSeconds 0 (globalStats r)) /\
  eeprom_buffer b = globalStats b /\
  eeprom_flash b = eeprom_flash r /\
  localZone b = localZone r.
Proof.
  cbv zeta. rewrite boot_run. cbv zeta.
  unfold setup, digitalWrite, execState. fw_run.
  rewrite setCurrentTime_run. cbv zeta. cbn [snd]. fields.
  repeat split.
Qed.

Lemma readFromEEProm_resolved (s : machine) :
  magicNumber (eeprom_buffer s) = EEPROM_MAGIC_NUMBER ->
  isError (createForZoneId (zoneId (eeprom_buffer s))) = false ->
  execState readFromEEProm s =
  let stored := eeprom_buffer s in
  mkMachine (currentDisplayedTime s) (currentTime s)
    (createForZoneId (zoneId stored))
    (with_uptimeSeconds 0
       (with_previousSecondsTotal (uptimeSecondsTotal stored) stored))
    stored stored (trace s).
Proof.
  intros valid resolves. unfold execState. rewrite readFromEEProm_run.
  cbv zeta. rewrite valid, Z.eqb_refl.
  cbn [with_previousSecondsTotal zoneId]. rewrite resolves. reflexivity.
Qed.

(** [setup()] counts the boot in the record in use and in the EEPROM
    library's buffer, but commits nothing: with a valid record whose zone
    resolves, the flash still holds the stored record, reboot count
    included, when [setup()] returns.  The count reaches the flash with the
    next commit, for instance the persistence lambda's. *)
Theorem boot_counts_without_commit (now : Z) (s : machine) :
  magicNumber (eeprom_buffer s) = EEPROM_MAGIC_NUMBER ->
  isError (createForZoneId (zoneId (eeprom_buffer s))) = false ->
  let stored := eeprom_buffer s in
  let b := execState (boot now) s in
  reboots (globalStats b) = (reboots stored + 1) mod 2 ^ 16 /\
  reboots (eeprom_buffer b) = (reboots stored + 1) mod 2 ^ 16 /\
  eeprom_flash b = stored /\
  reboots (eeprom_flash (execState persist b))
    = (reboots stored + 1) mod 2 ^ 16.
Proof.
  intros valid resolves. cbv zeta.
  destruct (boot_stats now s) as [stats [buffered [flash _]]].
  cbv zeta in stats, buffered, flash.
  rewrite (readFromEEProm_resolved s valid resolves) in stats, flash.
  cbv zeta in stats, flash. cbn [globalStats eeprom_flash] in stats, flash.
  assert (committed : eeprom_flash (execState persist (execState (boot now) s))
                      = globalStats (execState (boot now) s)).
  { unfold persist, EEPROM_put, EEPROM_commit, execState. fw_run. reflexivity. }
  rewrite committed, buffered, stats, flash.
  repeat split.
Qed.

End Persistence.

Section Accounting.

Context {ace : AceTime} {ids : ZoneIds}.

Lemma tick_stats (s : machine) :
  globalStats (execState tick s) = globalStats s.
Proof.
  unfold execState. rewrite tick_run. cbv zeta.
  destruct (currentDisplayedTime s =? currentTime s); [reflexivity|].
  destruct (currentDisplayedTime s <? currentTime s).
  - rewrite advance_run. reflexivity.
  - destruct (currentTime s + 10 <? currentDisplayedTime s); reflexivity.
Qed.

Lemma housekeeping_stats (millis now : Z) (s : machine) :
  globalStats (execState (housekeeping millis now) s)
  = with_uptime (millis / 1000)
      (Int.wrapu32 (previousSecondsTotal (globalStats s) + millis / 1000))
      (globalStats s).
Proof.
  unfold housekeeping, execState. rewrite run_bind, run_update.
  cbn [fst snd]. rewrite setCurrentTime_run. reflexivity.
Qed.

Lemma serve_counters (i : input) (s : machine) :
  let g := globalStats s in
  let g' := globalStats (execState (serve i) s) in
  magicNumber g' = magicNumber g /\
  previousSecondsTotal g' = previousSecondsTotal g /\
  reboots g' = reboots g.
Proof.
  cbv zeta. destruct i as [|millis now|req]; cbn [serve].
  - rewrite tick_stats. repeat split.
  - rewrite housekeeping_stats. repeat split.
  - unfold execState. rewrite handleSet_run. cbv zeta. cbn [snd]. fields.
    destruct (isError (createForZoneIndex (arg_zone req))); repeat split.
Qed.

Lemma serve_all_counters (inputs : list input) :
  forall s,
    let g := globalStats s in
    let g' := globalStats (execState (serve_all inputs) s) in
    magicNumber g' = magicNumber g /\
    previousSecondsTotal g' = previousSecondsTotal g /\
    reboots g' = reboots g.
Proof.
  cbv zeta. induction inputs as [|i rest IH]; intros s.
  - repeat split.
  - unfold serve_all, execState in *. cbn [for_each]. rewrite run_bind.
    fold (execState (serve i) s).
    destruct (IH (execState (serve i) s)) as [magic [previous count]].
    destruct (serve_counters i s) as [magic' [previous' count']].
    cbv zeta in magic', previous', count'.
    rewrite magic, previous, count. repeat split; assumption.
Qed.

Lemma readFromEEProm_counters (s : machine) :
  magicNumber (eeprom_buffer s) = EEPROM_MAGIC_NUMBER ->
  let g := globalStats (execState readFromEEProm s) in
  magicNumber g = EEPROM_MAGIC_NUMBER /\
  previousSecondsTotal g = uptimeSecondsTotal (eeprom_buffer s) /\
  reboots g = reboots (eeprom_buffer s).
Proof.
  intros valid. cbv zeta. unfold execState. rewrite readFromEEProm_run.
  cbv zeta. cbn [snd]. fields. rewrite valid, Z.eqb_refl.
  cbn [with_previousSecondsTotal zoneId].
  destruct (isError (createForZoneId (zoneId (eeprom_buffer s))));
    cbn [negb]; repeat split; assumption.
Qed.

(** Uptime and reboots across a session.  Boot from a valid record, let the
    handler, the tick and the housekeeping run in any order, then let the
    housekeeping run at [millis] milliseconds and the persistence lambda
    after it: the committed record holds the session uptime millis / 1000,
    the stored total plus that uptime (as a [uint32_t]) and the stored
    reboot count plus one (as a [uint16_t]). *)
Theorem session_accounting
    (now now' millis : Z) (inputs : list input) (s : machine) :
  magicNumber (eeprom_buffer s) = EEPROM_MAGIC_NUMBER ->
  let stored := eeprom_buffer s in
  let booted := execState (boot now) s in
  let later := execState (serve_all inputs) booted in
  let final := execState persist
                 (execState (housekeeping millis now') later) in
  magicNumber (eeprom_flash final) = EEPROM_MAGIC_NUMBER /\
  uptimeSeconds (eeprom_flash final) = millis / 1000 /\
  uptimeSecondsTotal (eeprom_flash final)
    = Int.wrapu32 (uptimeSecondsTotal stored + millis / 1000) /\
  reboots (eeprom_flash final) = (reboots stored + 1) mod 2 ^ 16.
Proof.
  intros valid. cbv zeta.
  set (booted := execState (boot now) s).
  set (later := execState (serve_all inputs) booted).
  assert (committed :
            eeprom_flash
              (execState persist (execState (housekeeping millis now') later))
            = globalStats (execState (housekeeping millis now') later)).
  { unfold persist, EEPROM_put, EEPROM_commit.
    unfold execState at 1. fw_run. reflexivity. }
  rewrite committed, housekeeping_stats.
  cbn [with_uptime magicNumber uptimeSeconds uptimeSecondsTotal reboots].
  destruct (serve_all_counters inputs booted) as [magic [previous count]].
  cbv zeta in magic, previous, count. fold later in magic, previous, count.
  rewrite magic, previous, count.
  destruct (boot_stats now s) as [stats _]. cbv zeta in stats.
  fold booted in stats. rewrite stats.
  cbn [with_reboots with_uptimeSeconds magicNumber previousSecondsTotal
       reboots].
  destruct (readFromEEProm_counters s valid) as [magic0 [previous0 count0]].
  cbv zeta in magic0, previous0, count0.
  rewrite magic0, previous0, count0. repeat split.
Qed.

(** The zone chosen on the page survives a restart.  After [POST /set]
    with a zone index that resolves to a zone with id [id], which the
    manager also resolves by id, a power cycle followed by
    [readFromEEProm] has [id] in the record in use and the zone created
    for [id] active, provided the record in use carried the magic number,
    as it does after any boot. *)
Theorem zone_survives_restart (req : request) (s : machine) (id : Z) :
  magicNumber (globalStats s) = EEPROM_MAGIC_NUMBER ->
  createForZoneIndex (arg_zone req) = TimeZoneFor id ->
  isError (createForZoneId id) = false ->
  let flash := eeprom_flash (execState (handleSet req) s) in
  let restarted := execState readFromEEProm (power_on flash) in
  zoneId (globalStats restarted) = id /\
  localZone restarted = createForZoneId id /\
  reboots (globalStats restarted) = reboots (globalStats s) /\
  uptimeSecondsTotal (globalStats restarted)
    = uptimeSecondsTotal (globalStats s).
Proof.
  intros valid resolves known. cbv zeta.
  assert (flash : eeprom_flash (execState (handleSet req) s)
                  = with_zoneId id (globalStats s)).
  { unfold execState. rewrite handleSet_run. cbv zeta. rewrite resolves.
    reflexivity. }
  rewrite flash.
  rewrite readFromEEProm_resolved; [repeat split | exact valid | exact known].
Qed.

End Accounting.

Lemma boot_reachable_witness :
  let b := execState (boot (ace := sample_zones) (ids := sample_ids) 86399)
             (power_on (ids := sample_ids)
                (mkStats EEPROM_MAGIC_NUMBER 50 900 800 4 101)) in
  reachable (ace := sample_zones) b /\
  currentDisplayedTime b = currentTime b /\
  0 <= currentDisplayedTime b <= 1440.
Proof.
  cbv zeta.
  apply (boot_reachable (ace := sample_zones) (ids := sample_ids)).
  unfold time_of_day. cbn. lia.
Defined.

Lemma boot_counts_without_commit_witness :
  let stored := mkStats EEPROM_MAGIC_NUMBER 50 900 800 65535 101 in
  let b := execState (boot (ace := sample_zones) (ids := sample_ids) 36000)
             (power_on (ids := sample_ids) stored) in
  reboots (globalStats b) = 0 /\ eeprom_flash b = stored.
Proof.
  cbv zeta.
  destruct (boot_counts_without_commit (ace := sample_zones)
              (ids := sample_ids) 36000
              (power_on (ids := sample_ids)
                 (mkStats EEPROM_MAGIC_NUMBER 50 900 800 65535 101))
              eq_refl eq_refl)
    as [counted [_ [flash _]]].
  split; [exact counted | exact flash].
Defined.

Lemma session_accounting_witness :
  let stored := mkStats EEPROM_MAGIC_NUMBER 50 900 800 4 101 in
  let booted := execState
                  (boot (ace := sample_zones) (ids := sample_ids) 36000)
                  (power_on (ids := sample_ids) stored) in
  let later := execState
                 (serve_all (ace := sample_zones)
                    [Tick; PostSet (mkRequest 10 5 1); Tick]) booted in
  let final := execState persist
                 (execState (housekeeping (ace := sample_zones) 61500 36061)
                            later) in
  uptimeSecondsTotal (eeprom_flash final) = 961 /\
  reboots (eeprom_flash final) = 5.
Proof.
  cbv zeta.
  destruct (session_accounting (ace := sample_zones) (ids := sample_ids)
              36000 36061 61500 [Tick; PostSet (mkRequest 10 5 1); Tick]
              (power_on (ids := sample_ids)
                 (mkStats EEPROM_MAGIC_NUMBER 50 900 800 4 101)) eq_refl)
    as [_ [_ [total count]]].
  split; [exact total | exact count].
Defined.

Lemma zone_survives_restart_witness :
  let s := showing 600 600 in
  let flash := eeprom_flash
                 (execState (handleSet (ace := sample_zones)
                               (mkRequest 10 0 2)) s) in
  let restarted := execState (readFromEEProm (ids := sample_ids))
                             (power_on (ids := sample_ids) flash) in
  zoneId (globalStats restarted) = 103 /\
  localZone restarted = TimeZoneFor 103.
Proof.
  cbv zeta.
  destruct (zone_survives_restart (ace := sample_zones) (ids := sample_ids)
              (mkRequest 10 0 2) (showing 600 600) 103
              eq_refl eq_refl eq_refl)
    as [used [active _]].
  split; [exact used | exact active].
Defined.

(** ** Waiting for the time *)

Lemma wrapu32_sub_shift (m start k : Z) :
  Int.wrapu32 (Int.wrapu32 (m + k) - Int.wrapu32 (start + k))
  = Int.wrapu32 (m - start).
Proof.
  unfold Int.wrapu32. rewrite <- Zminus_mod. f_equal. lia.
Qed.

(** [setupSntp] looks at the clock only through the unsigned difference
    to its start: if [millis()] had started [k] milliseconds later, wrapping
    around 2^32 included, the outcome would be the same. *)
Theorem setupSntp_wrap_safe (k startMillis : Z) (samples : list (Z * Z)) :
  setupSntp (Int.wrapu32 (startMillis + k))
            (map (fun sample => (fst sample, Int.wrapu32 (snd sample + k)))
                 samples)
  = setupSntp startMillis samples.
Proof.
  induction samples as [|[now nowMillis] rest IH]; [reflexivity|].
  cbn [setupSntp map fst snd]. rewrite wrapu32_sub_shift, IH. reflexivity.
Qed.

(** How [setupSntp] ends.  It returns at the first sample whose time is at
    least 946684800 (2000-01-01), provided every sample before it was taken
    less than 5000 ms after the start; it resets at the first sample with an
    earlier time taken 5000 ms or more after the start.  So the time handed
    on is never before 2000, and no reset comes before 5000 ms. *)
Theorem setupSntp_outcome (startMillis : Z) (samples : list (Z * Z)) :
  let early sample :=
    fst sample < EPOCH_2000_01_01 /\
    Int.wrapu32 (snd sample - startMillis) < REBOOT_TIMEOUT_MILLIS in
  (forall t,
     setupSntp startMillis samples = SntpDone t <->
     exists before nowMillis after,
       samples = before ++ (t, nowMillis) :: after /\
       Forall early before /\ EPOCH_2000_01_01 <= t) /\
  (setupSntp startMillis samples = SntpReset <->
   exists before now nowMillis after,
     samples = before ++ (now, nowMillis) :: after /\
     Forall early before /\ now < EPOCH_2000_01_01 /\
     REBOOT_TIMEOUT_MILLIS <= Int.wrapu32 (nowMillis - startMillis)).
Proof.
  cbv zeta. induction samples as [|[now nowMillis] rest [done reset]].
  - split; [intros t|]; (split; [discriminate|]).
    + intros [[|? ?] [? [? [impossible _]]]]; discriminate impossible.
    + intros [[|? ?] [? [? [? [impossible _]]]]]; discriminate impossible.
  - cbn [setupSntp].
    destruct (Z.leb_spec EPOCH_2000_01_01 now) as [valid | invalid].
    + split; [intros t; split|split].
      * intros [= <-]. exists [], nowMillis, rest. repeat split; auto.
      * intros [[|[now0 m0] before] [m [after [shape [all late]]]]];
          cbn in shape; injection shape as -> -> ->; [reflexivity|].
        inversion all as [|? ? [bad _] _]. cbn [fst] in bad. lia.
      * discriminate.
      * intros [[|[now0 m0] before] [t [m [after [shape [all [bad _]]]]]]];
          cbn in shape; injection shape as -> -> ->; [lia|].
        inversion all as [|? ? [bad' _] _]. cbn [fst] in bad'. lia.
    + destruct (Z.leb_spec REBOOT_TIMEOUT_MILLIS
                  (Int.wrapu32 (nowMillis - startMillis))) as [late | soon].
      * split; [intros t; split|split].
        -- discriminate.
        -- intros [[|[now0 m0] before] [m [after [shape [all valid]]]]];
             cbn in shape; injection shape as -> -> ->; [lia|].
           inversion all as [|? ? [_ bad] _]. cbn [snd] in bad. lia.
        -- intros _. exists [], now, nowMillis, rest. repeat split; auto.
        -- reflexivity.
      * split; [intros t; split|split].
        -- intros found. apply done in found.
           destruct found as [before [m [after [-> [all valid]]]]].
           exists ((now, nowMillis) :: before), m, after.
           repeat split; auto.
        -- intros [[|[now0 m0] before] [m [after [shape [all valid]]]]];
             cbn in shape; injection shape as -> -> ->; [lia|].
           apply done. exists before, m, after.
           inversion all. repeat split; auto.
        -- intros found. apply reset in found.
           destruct found as [before [t [m [after [-> [all [bad late]]]]]]].
           exists ((now, nowMillis) :: before), t, m, after.
           repeat split; auto.
        -- intros [[|[now0 m0] before] [t [m [after [shape [all [bad late]]]]]]];
             cbn in shape; injection shape as -> -> ->; [lia|].
           apply reset. exists before, t, m, after.
           inversion all. repeat split; auto.
Qed.

Lemma setupSntp_outcome_witness :
  setupSntp 4294967000 [(0, 4294967200); (3, 400); (1700000000, 900)]
  = SntpDone 1700000000.
Proof.
  apply (proj1 (setupSntp_outcome 4294967000
                  [(0, 4294967200); (3, 400); (1700000000, 900)])).
  exists [(0, 4294967200); (3, 400)], 900, [].
  split; [reflexivity | split].
  - repeat constructor; cbn; lia.
  - unfold EPOCH_2000_01_01. lia.
Defined.

(** ** The timers *)

Lemma runEvery_run (T : Z) (lastMillis : option Z) (init now at_fire : Z)
    (f : fw unit) (s : machine) :
  runState (runEvery T lastMillis init now at_fire f) s =
  let last := match lastMillis with Some l => l | None => init end in
  if Int.wrapu32 (last + T) <=? now then (at_fire, execState f s)
  else (last, s).
Proof.
  unfold runEvery. cbv zeta.
  destruct (Int.wrapu32 _ <=? now); [|reflexivity].
  rewrite run_bind, run_ret. unfold execState. reflexivity.
Qed.

(** As long as [lastMillis + T] stays below 2^32, a call of [runEvery<T>]
    runs [f], once, and takes the new reading as [lastMillis] exactly when
    the clock reads [lastMillis + T] or more; otherwise it changes nothing.
    In particular nothing runs for any reading below [lastMillis], as all
    readings are once [millis()] has wrapped. *)
Theorem runEvery_period (T last init now at_fire : Z)
    (f : fw unit) (s : machine) :
  0 <= last -> 0 <= T -> last + T < 2 ^ 32 ->
  (last + T <= now ->
   runState (runEvery T (Some last) init now at_fire f) s
   = (at_fire, execState f s)) /\
  (now < last + T ->
   runState (runEvery T (Some last) init now at_fire f) s = (last, s)) /\
  (now < last ->
   runState (runEvery T (Some last) init now at_fire f) s = (last, s)).
Proof.
  intros low period fits. rewrite runEvery_run. cbv zeta.
  unfold Int.wrapu32. rewrite Z.mod_small by lia.
  destruct (Z.leb_spec (last + T) now); repeat split; intros; try lia;
    reflexivity.
Qed.

(** When [lastMillis + T] reaches 2^32 the sum wraps, and until [millis()]
    wraps too every call runs [f], however little time has passed since the
    last run. *)
Theorem runEvery_overflow (T last init now at_fire : Z)
    (f : fw unit) (s : machine) :
  0 <= last < 2 ^ 32 -> 0 <= T < 2 ^ 32 -> 2 ^ 32 <= last + T ->
  last <= now ->
  runState (runEvery T (Some last) init now at_fire f) s
  = (at_fire, execState f s).
Proof.
  intros range period wraps later. rewrite runEvery_run. cbv zeta.
  unfold Int.wrapu32.
  replace ((last + T) mod 2 ^ 32) with (last + T - 2 ^ 32).
  - destruct (Z.leb_spec (last + T - 2 ^ 32) now); [reflexivity | lia].
  - apply Z.mod_unique with (q := 1); lia.
Qed.

Lemma runEvery_period_witness :
  runState (runEvery 1000 (Some 4294966295) 0 4294967295 4294967295 tick)
           (showing 600 601)
  = (4294967295, execState tick (showing 600 601)) /\
  runState (runEvery 1000 (Some 4294966295) 0 3 3 tick) (showing 600 601)
  = (4294966295, showing 600 601).
Proof.
  destruct (runEvery_period 1000 4294966295 0 4294967295 4294967295 tick
              (showing 600 601) ltac:(lia) ltac:(lia) ltac:(lia))
    as [due _].
  destruct (runEvery_period 1000 4294966295 0 3 3 tick
              (showing 600 601) ltac:(lia) ltac:(lia) ltac:(lia))
    as [_ [_ wrapped]].
  split; [apply due; lia | apply wrapped; lia].
Defined.

Lemma runEvery_overflow_witness :
  runState (runEvery 1000 (Some 4294966800) 0 4294966800 4294966801 tick)
           (showing 600 601)
  = (4294966801, execState tick (showing 600 601)).
Proof.
  apply runEvery_overflow; lia.
Defined.

(** ** Settling on a fixed target *)

Lemma ticks_add (n m : nat) (s : machine) :
  execState (ticks (n + m)) s = execState (ticks m) (execState (ticks n) s).
Proof.
  revert s. induction n as [|n IH]; intros s; [reflexivity|].
  cbn [Nat.add]. rewrite !ticks_step. apply IH.
Qed.

Lemma ticks_arrive (s : machine) :
  -32768 <= currentDisplayedTime s <= currentTime s ->
  currentTime s <= 1439 ->
  let n := Z.to_nat (currentTime s - currentDisplayedTime s) in
  currentDisplayedTime (execState (ticks n) s) = currentTime s /\
  currentTime (execState (ticks n) s) = currentTime s.
Proof.
  intros behind day. cbv zeta.
  destruct (ticks_walk (Z.to_nat (currentTime s - currentDisplayedTime s)) s)
    as [walked fixed]; lia.
Qed.

(** With the target fixed at a minute of the day (0..1439) and ticks only,
    the clock settles: from any tracker value above -1440 and up to 1440,
    after at most 2878 ticks the tracker either equals the target or is
    ahead of it by at most ten minutes, and from then on a tick changes
    nothing and emits no pulse. *)
Theorem ticks_settle (s : machine) :
  0 <= currentTime s <= 1439 ->
  -1440 < currentDisplayedTime s <= 1440 ->
  exists n : nat,
    (n <= 2878)%nat /\
    let settled := execState (ticks n) s in
    (currentDisplayedTime settled = currentTime s \/
     currentTime s < currentDisplayedTime settled <= currentTime s + 10) /\
    execState tick settled = settled /\
    effects tick settled = [].
Proof.
  intros target displayed.
  assert (idle : forall m,
            currentTime m = currentTime s ->
            currentDisplayedTime m = currentTime s \/
            currentTime s < currentDisplayedTime m <= currentTime s + 10 ->
            execState tick m = m /\ effects tick m = []).
  { intros m fixed near. split.
    - unfold execState. rewrite tick_idle; [reflexivity | lia].
    - rewrite tick_effects.
      destruct (Z.ltb_spec (currentDisplayedTime m) (currentTime m));
        [lia | reflexivity]. }
  destruct (Z_le_gt_dec (currentDisplayedTime s) (currentTime s))
    as [behind | ahead].
  - exists (Z.to_nat (currentTime s - currentDisplayedTime s)).
    split; [lia|]. cbv zeta.
    destruct (ticks_arrive s ltac:(lia) ltac:(lia)) as [arrived fixed].
    split; [left; exact arrived | apply idle; [exact fixed | left; exact arrived]].
  - destruct (Z_le_gt_dec (currentDisplayedTime s) (currentTime s + 10))
      as [near | far].
    + exists 0%nat. split; [lia|]. cbv zeta. change (execState (ticks 0) s) with s.
      split; [right; lia | apply idle; [reflexivity | right; lia]].
    + assert (rebased : currentDisplayedTime (execState tick s)
                        = currentDisplayedTime s - 1440).
      { unfold execState. rewrite tick_rebase by lia. cbn [snd]. fields.
        apply wrap16_small. unfold Int.in_int16. lia. }
      pose proof (tick_target s) as kept.
      exists (1 + Z.to_nat (currentTime s - (currentDisplayedTime s - 1440)))%nat.
      split; [lia|]. cbv zeta. rewrite ticks_add.
      rewrite (ticks_step 0 s).
      change (execState (ticks 0) (execState tick s)) with (execState tick s).
      destruct (ticks_arrive (execState tick s) ltac:(lia) ltac:(lia))
        as [arrived fixed].
      rewrite kept, rebased in arrived. rewrite kept, rebased in fixed.
      split; [left; exact arrived
             | apply idle; [exact fixed | left; exact arrived]].
Qed.

Lemma ticks_settle_witness :
  exists n : nat,
    (n <= 2878)%nat /\
    (currentDisplayedTime (execState (ticks n) (showing (-1439) 1439)) = 1439 \/
     1439 < currentDisplayedTime (execState (ticks n) (showing (-1439) 1439))
          <= 1439 + 10).
Proof.
  destruct (ticks_settle (showing (-1439) 1439) ltac:(cbn; lia) ltac:(cbn; lia))
    as [n [bound [where_ _]]].
  exists n. split; [exact bound | exact where_].
Defined.

(** ** The drive lines between inputs *)

Lemma timeline_final_app (ls : lines) (a b : list event) :
  snd (timeline ls (a ++ b)) = snd (timeline (snd (timeline ls a)) b).
Proof.
  revert ls. induction a as [|e a IH]; intros ls; [reflexivity|].
  destruct e; simpl; try apply IH.
  specialize (IH ls).
  destruct (timeline ls (a ++ b)), (timeline ls a). exact IH.
Qed.

Lemma waveform_final (ls : lines) (p : pin) :
  snd (timeline ls (waveform p)) = (Low, Low).
Proof. destruct ls, p; reflexivity. Qed.

Section Lines.

Context {ace : AceTime}.

Lemma serve_trace (i : input) (s : machine) :
  trace (execState (serve i) s) = trace s ++ effects (serve i) s.
Proof.
  destruct i as [|millis now|req].
  - cbn [serve]. unfold effects, execState. rewrite !tick_run. cbv zeta.
    rewrite !with_trace_displayed, !with_trace_target.
    destruct (currentDisplayedTime s =? currentTime s);
      [cbn; rewrite app_nil_r; reflexivity|].
    destruct (currentDisplayedTime s <? currentTime s).
    + rewrite !advance_run. reflexivity.
    + destruct (currentTime s + 10 <? currentDisplayedTime s);
        cbn; rewrite app_nil_r; reflexivity.
  - rewrite (housekeeping_effects millis now s), app_nil_r.
    exact (proj1 (proj2 (housekeeping_clock millis now s))).
  - cbn [serve]. rewrite handleSet_effects. unfold execState.
    rewrite handleSet_run. reflexivity.
Qed.

(** Between inputs the coil is not driven: in every reachable state, the
    effects so far have left both drive lines low, whatever state the lines
    were in at power-on. *)
Theorem lines_low_between_inputs (s : machine) (ls : lines) :
  reachable s -> snd (timeline ls (trace s)) = (Low, Low).
Proof.
  intros reached. revert ls.
  induction reached as [s now valid | s i reached IH ok]; intros ls.
  - unfold setup, digitalWrite, execState. fw_run.
    rewrite setCurrentTime_run. cbv zeta. cbn [snd]. fields.
    rewrite <- app_assoc, timeline_final_app.
    destruct (snd (timeline ls (trace s))). reflexivity.
  - rewrite serve_trace, timeline_final_app, IH.
    destruct i as [|millis now|req].
    + cbn [serve]. rewrite tick_effects.
      destruct (currentDisplayedTime s <? currentTime s);
        [apply waveform_final | reflexivity].
    + rewrite housekeeping_effects. reflexivity.
    + cbn [serve]. rewrite handleSet_effects. reflexivity.
Qed.

End Lines.

Lemma lines_low_between_inputs_witness :
  let s0 := execState (setup (ace := sample_zones) 36000) (showing 0 0) in
  let s1 := execState (serve (ace := sample_zones)
                         (PostSet (mkRequest 13 20 0))) s0 in
  let s2 := execState (serve (ace := sample_zones) Tick) s1 in
  snd (timeline (High, Pwm 7) (trace s2)) = (Low, Low).
Proof.
  exact (lines_low_between_inputs (ace := sample_zones) _ (High, Pwm 7)
           scenario_far_ahead_reachable).
Defined.

(** ** Pulses of a catch-up *)

Section CatchUp.

Context {ace : AceTime}.

Lemma observe_tick_behind (s : machine) :
  currentDisplayedTime s < currentTime s ->
  observe Tick s = [Pulse (line_for (currentDisplayedTime s))].
Proof.
  intros behind. unfold observe. cbn [serve]. rewrite tick_effects.
  destruct (Z.ltb_spec (currentDisplayedTime s) (currentTime s)); [|lia].
  rewrite active_line_waveform. reflexivity.
Qed.

(** A tracker [n] minutes or more behind a target below 1440 takes exactly
    [n] pulses in the next [n] ticks, one per tick and no override, and is
    [n] minutes further. *)
Theorem catch_up_count (n : nat) :
  forall s,
    -32768 <= currentDisplayedTime s ->
    currentDisplayedTime s + Z.of_nat n <= currentTime s ->
    currentTime s <= 1439 ->
    history (repeat Tick n) s
      = map Pulse (pulse_lines (history (repeat Tick n) s)) /\
    List.length (pulse_lines (history (repeat Tick n) s)) = n /\
    currentDisplayedTime (execState (ticks n) s)
      = currentDisplayedTime s + Z.of_nat n.
Proof.
  induction n as [|n IH]; intros s low behind day.
  - cbn. repeat split. lia.
  - cbn [repeat history]. rewrite observe_tick_behind by lia.
    cbn [serve]. rewrite ticks_step.
    pose proof (tick_behind s ltac:(lia) day) as moved.
    pose proof (tick_target s) as kept.
    destruct (IH (execState tick s)) as [pulses [count walked]]; try lia.
    change ([Pulse (line_for (currentDisplayedTime s))]
            ++ history (repeat Tick n) (execState tick s))
      with (Pulse (line_for (currentDisplayedTime s))
            :: history (repeat Tick n) (execState tick s)).
    cbn [pulse_lines map List.length].
    split; [f_equal; exact pulses | split; [f_equal; exact count | lia]].
Qed.

End CatchUp.

Lemma catch_up_count_witness :
  List.length
    (pulse_lines (history (ace := sample_zones) (repeat Tick 60)
                          (showing 600 660))) = 60%nat /\
  currentDisplayedTime (execState (ticks 60) (showing 600 660)) = 660.
Proof.
  destruct (catch_up_count (ace := sample_zones) 60 (showing 600 660)
              ltac:(cbn; lia) ltac:(cbn; lia) ltac:(cbn; lia))
    as [_ [count walked]].
  split; [exact count | exact walked].
Defined.
